(** * ai-study-bot: a shallow embedding of [main.py]

    The program is a command loop around one object, [StudyBot], which owns
    an in-memory formula dictionary backed by [formulas.json], a language
    model handle and a directory of PDF files.

    Python strings are sequences of Unicode code points, so [str] is
    modelled as [list N].  Exceptions are modelled by an error monad over
    an explicit program state; the state also records every effect the
    specification talks about (prompts sent to the model, documents handed to
    [json.dump], paths handed to [fitz.open], log records, console output).
    What the surroundings do during one operation (what the model answers,
    whether a write succeeds, what the documents directory holds) is an
    explicit input of that operation, the record [env]. *)

From Stdlib Require Import String Ascii NArith ZArith List Lia.
From Stdlib Require DecimalString.
From stdpp Require Import gmap list.

Set Warnings "-register-all".
Local Open Scope N_scope.

(* ================================================================== *)
(** * Python strings *)
(* ================================================================== *)

Abbreviation pystr := (list N) (only parsing).

(** An ASCII literal of the source, as code points. *)
Definition py (s : string) : pystr :=
  map N_of_ascii (list_ascii_of_string s).
Arguments py s%_string : simpl never.

(** ["\n"] *)
Definition NL : pystr := [10].

(** The pictographs used in the user-visible prefixes. *)
Definition BLUE_BOOK : pystr := [0x1F4D8].      (* U+1F4D8, "blue book" *)
Definition BRAIN : pystr := [0x1F9E0].          (* U+1F9E0, "brain" *)
Definition PAGE_FACING_UP : pystr := [0x1F4C4]. (* U+1F4C4, "page facing up" *)
Definition CROSS_MARK : pystr := [0x274C].      (* U+274C, "cross mark" *)
Definition MAGNIFIER : pystr := [0x1F50D].      (* U+1F50D, "magnifying glass" *)

Arguments NL : simpl never.
Arguments BLUE_BOOK : simpl never.
Arguments BRAIN : simpl never.
Arguments PAGE_FACING_UP : simpl never.
Arguments CROSS_MARK : simpl never.
Arguments MAGNIFIER : simpl never.

(** [str(n)] for a non-negative integer. *)
Definition str_of_nat (n : nat) : pystr :=
  py (DecimalString.NilZero.string_of_uint (Nat.to_uint n)).

(** [str.isspace] on one code point: the whitespace set of CPython
    ([_PyUnicode_IsWhitespace]), which [str.strip()] and [str.split()]
    use when no separator is given. *)
Definition isspace (c : N) : bool :=
  ((0x09 <=? c) && (c <=? 0x0D)) || ((0x1C <=? c) && (c <=? 0x20))
  || (c =? 0x85) || (c =? 0xA0) || (c =? 0x1680)
  || ((0x2000 <=? c) && (c <=? 0x200A))
  || (c =? 0x2028) || (c =? 0x2029) || (c =? 0x202F) || (c =? 0x205F)
  || (c =? 0x3000).

(** [s.lstrip()] *)
Fixpoint lstrip (s : pystr) : pystr :=
  match s with
  | [] => []
  | c :: r => if isspace c then lstrip r else s
  end.

(** [s.rstrip()] *)
Definition rstrip (s : pystr) : pystr := rev (lstrip (rev s)).

(** [s.strip()] *)
Definition strip (s : pystr) : pystr := rstrip (lstrip s).

(** The leading run of non-whitespace of [s], and what follows it. *)
Fixpoint span_word (s : pystr) : pystr * pystr :=
  match s with
  | [] => ([], [])
  | c :: r =>
      if isspace c then ([], s)
      else let '(w, rest) := span_word r in (c :: w, rest)
  end.

(** [s.split(maxsplit=n)]: split on runs of whitespace, at most [n]
    times; the remainder, leading whitespace skipped, is the last part. *)
Fixpoint split_max (n : nat) (s : pystr) : list pystr :=
  match lstrip s with
  | [] => []
  | c :: r =>
      match n with
      | O => [c :: r]
      | S m => let '(w, rest) := span_word (c :: r) in w :: split_max m rest
      end
  end.

(** [s.startswith(p)] *)
Fixpoint startswith (s p : pystr) : bool :=
  match p, s with
  | [], _ => true
  | _ :: _, [] => false
  | a :: p', b :: s' => (a =? b) && startswith s' p'
  end.

(** [s.endswith(p)] *)
Definition endswith (s p : pystr) : bool := startswith (rev s) (rev p).

(** [s == t] *)
Definition str_eqb (s t : pystr) : bool := bool_decide (s = t).

(* ================================================================== *)
(** * JSON values, exceptions *)
(* ================================================================== *)

(** What [json.load] returns.  A Python [dict] with string keys is a
    finite map; [float] values are kept as their literal. *)
Inductive json : Type :=
| JNull
| JBool (b : bool)
| JInt (z : Z)
| JFloat (literal : list N)
| JStr (s : list N)
| JList (l : list json)
| JDict (d : gmap (list N) json).

(** [{"formulas": {}}] *)
Definition default_data : gmap pystr json :=
  <[py "formulas" := JDict ∅]> ∅.

(** [type(v).__name__] *)
Definition type_name (v : json) : pystr :=
  match v with
  | JNull => py "NoneType"
  | JBool _ => py "bool"
  | JInt _ => py "int"
  | JFloat _ => py "float"
  | JStr _ => py "str"
  | JList _ => py "list"
  | JDict _ => py "dict"
  end.

(** [isinstance(v, dict)] *)
Definition isinstance_dict (v : json) : bool :=
  match v with JDict _ => true | _ => false end.

(** The exception classes the program can meet. *)
Inductive exn_class : Set :=
| FileNotFoundError     (* OSError *)
| OSError
| JSONDecodeError       (* ValueError *)
| UnicodeDecodeError    (* ValueError *)
| ValueError
| AttributeError
| RuntimeError          (* any other subclass of Exception *)
| KeyboardInterrupt     (* BaseException, not Exception *)
| SystemExit (status : Z). (* BaseException, not Exception *)

Record exn : Type := Exn { exn_cls : exn_class; exn_msg : pystr }.

(** [isinstance(e, Exception)] *)
Definition isinstance_Exception (e : exn) : bool :=
  match exn_cls e with
  | KeyboardInterrupt | SystemExit _ => false
  | _ => true
  end.

(** [isinstance(e, (json.JSONDecodeError, ValueError, UnicodeDecodeError))] *)
Definition isinstance_decode_error (e : exn) : bool :=
  match exn_cls e with
  | JSONDecodeError | ValueError | UnicodeDecodeError => true
  | _ => false
  end.

Inductive res (A : Type) : Type :=
| Ret (a : A)
| Raised (e : exn).
Arguments Ret {A} a.
Arguments Raised {A} e.

(* ================================================================== *)
(** * Library functions taken as parameters *)
(* ================================================================== *)

(** Functions of the Python runtime whose tables are not part of the
    program.  Every theorem below holds for whatever they compute. *)
Class Runtime : Type := {
  (** [str.lower] (full Unicode case mapping) *)
  str_lower : pystr -> pystr;
  (** [os.path.join] *)
  os_path_join : pystr -> pystr -> pystr;
  (** [format(v, "")] for a value that is not a [str] *)
  format_object : json -> pystr
}.

(* ================================================================== *)
(** * Program state and surroundings *)
(* ================================================================== *)

(** [formulas.json] as [open] and [json.load] see it. *)
Inductive file_state : Type :=
| Absent                       (* open(..., 'r') raises FileNotFoundError *)
| Unreadable (why : list N)    (* open(..., 'r') raises another OSError *)
| Undecodable (why : list N)   (* the bytes are not UTF-8 *)
| Malformed (why : list N)     (* the text is not JSON *)
| Document (v : json).         (* the text is JSON for [v] *)

Inductive level : Set := INFO | WARNING | ERROR.

Inductive output : Type :=
| Print (s : list N)           (* print(s) *)
| Prompt (s : list N).         (* the prompt written by input(s) *)

Record state : Type := mkState {
  formulas_db : gmap (list N) json;   (* self.formulas_db *)
  store_file : file_state;            (* formulas.json *)
  model_calls : list (list N);        (* prompts given to self.model.generate *)
  file_writes : list json;            (* documents the program set out to
                                         write to formulas.json, whether
                                         or not the write succeeded *)
  pdf_opens : list (list N);          (* paths given to fitz.open *)
  log : list (level * list N);        (* logging records *)
  stdout : list output                (* console *)
}.

(** What one write of [formulas.json] does. *)
Inductive write_outcome : Type :=
| WriteOk
| WriteError (why : list N) (after : file_state).
    (* OSError; the file is left as [after] *)

(** One item of the iteration over a [fitz] document. *)
Inductive page_item : Type :=
| PageText (text : list N)     (* page.get_text() returns [text] *)
| PageError (e : exn)          (* page.get_text() raises *)
| LoadError (e : exn).         (* the page cannot be loaded *)

(** What the surroundings do during one operation. *)
Record env : Type := mkEnv {
  generate : pystr -> res pystr;             (* self.model.generate *)
  write_result : write_outcome;              (* open(..., 'w') + json.dump *)
  listdir : res (list pystr);                (* os.listdir("documents") *)
  path_exists : pystr -> bool;               (* os.path.exists *)
  fitz_open : pystr -> res (list page_item)  (* fitz.open *)
}.

(* ================================================================== *)
(** * The exception monad over the state *)
(* ================================================================== *)

Definition M (A : Type) : Type := state -> res A * state.

Definition ret {A} (a : A) : M A := fun st => (Ret a, st).

Definition raise {A} (e : exn) : M A := fun st => (Raised e, st).

Definition bind {A B} (m : M A) (k : A -> M B) : M B :=
  fun st =>
    match m st with
    | (Ret a, st') => k a st'
    | (Raised e, st') => (Raised e, st')
    end.

(** [try: body  except <classes> as e: handler e] *)
Definition try_except {A} (body : M A) (catches : exn -> bool)
    (handler : exn -> M A) : M A :=
  fun st =>
    match body st with
    | (Ret a, st') => (Ret a, st')
    | (Raised e, st') =>
        if catches e then handler e st' else (Raised e, st')
    end.

Declare Scope py_scope.
Delimit Scope py_scope with py.
Notation "x <- m ;; k" := (bind m (fun x => k))
  (at level 100, m at next level, right associativity) : py_scope.
Notation "m ;; k" := (bind m (fun _ => k))
  (at level 100, right associativity) : py_scope.
Local Open Scope py_scope.

(** ** State updates *)

Definition set_formulas_db (d : gmap pystr json) (st : state) : state :=
  mkState d (store_file st) (model_calls st) (file_writes st)
          (pdf_opens st) (log st) (stdout st).

Definition add_log (r : level * pystr) (st : state) : state :=
  mkState (formulas_db st) (store_file st) (model_calls st)
          (file_writes st) (pdf_opens st) (log st ++ [r]) (stdout st).

Definition add_output (o : output) (st : state) : state :=
  mkState (formulas_db st) (store_file st) (model_calls st)
          (file_writes st) (pdf_opens st) (log st) (stdout st ++ [o]).

Definition add_model_call (prompt : pystr) (st : state) : state :=
  mkState (formulas_db st) (store_file st) (model_calls st ++ [prompt])
          (file_writes st) (pdf_opens st) (log st) (stdout st).

(** [doc] was handed to [json.dump] and the file is now [f]. *)
Definition add_file_write (doc : json) (f : file_state) (st : state)
  : state :=
  mkState (formulas_db st) f (model_calls st) (file_writes st ++ [doc])
          (pdf_opens st) (log st) (stdout st).

Definition add_pdf_open (path : pystr) (st : state) : state :=
  mkState (formulas_db st) (store_file st) (model_calls st)
          (file_writes st) (pdf_opens st ++ [path]) (log st) (stdout st).

(** ** Primitive operations *)

(** [logging.<lvl>(msg)] *)
Definition logging (lvl : level) (msg : pystr) : M unit :=
  fun st => (Ret tt, add_log (lvl, msg) st).

Definition emit (o : output) : M unit :=
  fun st => (Ret tt, add_output o st).

(** [print(s)] *)
Definition print (s : pystr) : M unit := emit (Print s).

(** [self.model.generate(prompt)] *)
Definition model_generate (e : env) (prompt : pystr) : M pystr :=
  fun st => (generate e prompt, add_model_call prompt st).

(** [with open(self.formulas_file, 'r', encoding='utf-8') as f:
       data = json.load(f)] *)
Definition load_store : M json :=
  fun st =>
    match store_file st with
    | Absent =>
        (Raised (Exn FileNotFoundError
           (py "[Errno 2] No such file or directory: 'formulas.json'")), st)
    | Unreadable why => (Raised (Exn OSError why), st)
    | Undecodable why => (Raised (Exn UnicodeDecodeError why), st)
    | Malformed why => (Raised (Exn JSONDecodeError why), st)
    | Document v => (Ret v, st)
    end.

(** [with open(self.formulas_file, 'w', encoding='utf-8') as f:
       json.dump(doc, f, ...)] *)
Definition dump_store (e : env) (doc : json) : M unit :=
  fun st =>
    match write_result e with
    | WriteOk => (Ret tt, add_file_write doc (Document doc) st)
    | WriteError why after =>
        (Raised (Exn OSError why), add_file_write doc after st)
    end.

(** [os.listdir("documents")] *)
Definition os_listdir (e : env) : M (list pystr) :=
  fun st => (listdir e, st).

(** [fitz.open(path)] *)
Definition open_pdf (e : env) (path : pystr) : M (list page_item) :=
  fun st => (fitz_open e path, add_pdf_open path st).

(** reading [self.formulas_db] *)
Definition read_formulas_db : M (gmap pystr json) :=
  fun st => (Ret (formulas_db st), st).

(** assigning [self.formulas_db] *)
Definition assign_formulas_db (d : gmap pystr json) : M unit :=
  fun st => (Ret tt, set_formulas_db d st).

(** [data.get(key, dflt)]: only a [dict] has the method. *)
Definition py_get (data : json) (key : pystr) (dflt : json) : M json :=
  match data with
  | JDict d => ret (default dflt (d !! key))
  | _ =>
      raise (Exn AttributeError
               (py "'" ++ type_name data
                ++ py "' object has no attribute 'get'"))
  end.

(** The mapping held by a [dict] object. *)
Definition dict_items (v : json) : gmap pystr json :=
  match v with JDict d => d | _ => ∅ end.

(* ================================================================== *)
(** * class StudyBot *)
(* ================================================================== *)

Section StudyBot.
Context {RT : Runtime}.

(** [StudyBot.validate_and_fix_json] *)
Definition validate_and_fix_json (e : env) : M json :=
  try_except
    (data <- load_store ;;
     formulas <- py_get data (py "formulas") (JDict ∅) ;;
     if negb (isinstance_dict formulas) then
       raise (Exn ValueError
         (py "Invalid structure: 'formulas' key is not a dictionary."))
     else
       logging INFO (py "JSON file is valid.") ;;
       ret data)
    isinstance_decode_error
    (fun ex =>
       logging ERROR (py "Invalid JSON file: " ++ exn_msg ex
                      ++ py ". Resetting to default.") ;;
       dump_store e (JDict default_data) ;;
       ret (JDict default_data)).

(** [StudyBot.init_formulas_db] *)
Definition init_formulas_db (e : env) : M unit :=
  data <- validate_and_fix_json e ;;
  formulas <- py_get data (py "formulas") (JDict ∅) ;;
  assign_formulas_db (dict_items formulas).

(** [f"{v}"] *)
Definition format_value (v : json) : pystr :=
  match v with
  | JStr s => s
  | _ => format_object v
  end.

(** [StudyBot.get_formula] *)
Definition get_formula (e : env) (query : pystr) : M pystr :=
  let query_lower := str_lower query in
  db <- read_formulas_db ;;
  match db !! query_lower with
  | Some v =>
      logging INFO (py "Formula for '" ++ query_lower
                    ++ py "' found in database.") ;;
      ret (BLUE_BOOK ++ py " From Database:" ++ NL ++ format_value v)
  | None =>
      logging INFO (py "Formula for '" ++ query_lower
                    ++ py "' not found. Generating...") ;;
      response <- model_generate e
        (py "Provide the exact formula for " ++ query
         ++ py " with brief explanation. Use LaTeX math formatting with $$ when appropriate.") ;;
      db <- read_formulas_db ;;
      assign_formulas_db (<[query_lower := JStr response]> db) ;;
      try_except
        (db <- read_formulas_db ;;
         dump_store e (JDict (<[py "formulas" := JDict db]> ∅)) ;;
         logging INFO (py "Formula for '" ++ query_lower
                       ++ py "' saved to formulas.json."))
        isinstance_Exception
        (fun ex =>
           logging ERROR (py "Failed to save formula to file: "
                          ++ exn_msg ex)) ;;
      ret (BRAIN ++ py " New Formula:" ++ NL ++ response)
  end.

(** The loop of [query_pdf]:
    [for i, page in enumerate(doc):
       if i >= 10: break
       text += page.get_text()] *)
Fixpoint read_pages (i : nat) (items : list page_item) (text : pystr)
  : M pystr :=
  match items with
  | [] => ret text
  | LoadError ex :: _ => raise ex
  | PageText t :: rest =>
      if (10 <=? i)%nat then ret text
      else read_pages (S i) rest (text ++ t)
  | PageError ex :: _ =>
      if (10 <=? i)%nat then ret text else raise ex
  end.

(** [StudyBot.query_pdf] *)
Definition query_pdf (e : env) (filename question : pystr) : M pystr :=
  try_except
    (let filepath := os_path_join (py "documents") filename in
     if negb (path_exists e filepath) then
       logging ERROR (py "File '" ++ filename ++ py "' not found.") ;;
       ret (CROSS_MARK ++ py " Error: File '" ++ filename
            ++ py "' not found.")
     else
       doc <- open_pdf e filepath ;;
       text <- read_pages 0 doc [] ;;
       if bool_decide (strip text = []) then
         logging WARNING (py "The document is empty or unreadable.") ;;
         ret (CROSS_MARK ++ py " Error: The document is empty or unreadable.")
       else
         logging INFO (py "Generating response from the model...") ;;
         response <- model_generate e
           (py "Answer based on this document:" ++ NL ++ take (N.to_nat 10000) text
            ++ NL ++ NL ++ py "Question: " ++ question ++ NL
            ++ py "Answer:") ;;
         logging INFO (py "Response generated successfully.") ;;
         ret (PAGE_FACING_UP ++ py " PDF Answer:" ++ NL ++ response))
    isinstance_Exception
    (fun ex =>
       logging ERROR (py "Error while processing PDF query: " ++ exn_msg ex) ;;
       ret (CROSS_MARK ++ py " Error: " ++ exn_msg ex)).

(** [StudyBot.list_files] *)
Definition list_files (e : env) : M (list pystr) :=
  try_except
    (names <- os_listdir e ;;
     let files := List.filter (fun f => endswith f (py ".pdf")) names in
     logging INFO (py "Found " ++ str_of_nat (length files)
                   ++ py " PDF(s) in the documents directory.") ;;
     ret files)
    isinstance_Exception
    (fun ex =>
       logging ERROR (py "Error listing files in 'documents' directory: "
                      ++ exn_msg ex) ;;
       ret []).

(** [StudyBot.__init__]; [model_load] is what the [GPT4All] constructor
    does, [exit(1)] raises [SystemExit]. *)
Definition StudyBot_init (model_load : res unit) (e : env) : M unit :=
  try_except
    (fun st => (model_load, st))
    isinstance_Exception
    (fun ex =>
       logging ERROR (py "Failed to load GPT4All model: " ++ exn_msg ex) ;;
       raise (Exn (SystemExit 1) [])) ;;
  assign_formulas_db ∅ ;;
  init_formulas_db e.

(* ================================================================== *)
(** * main *)
(* ================================================================== *)

(** [for f in files: print(f"- {f}")] *)
Fixpoint print_files (files : list pystr) : M unit :=
  match files with
  | [] => ret tt
  | f :: rest => print (py "- " ++ f) ;; print_files rest
  end.

(** One iteration of [while True:] on the line [typed] that [input]
    returns; the result is [false] when the iteration ends in [break].
    The iteration starts where [input] has returned: an [input] that
    raises (end of the input stream, bytes that cannot be decoded) is not
    part of it.  The standard output is taken to encode what is printed;
    a [print] that raises on a text it cannot encode (a lone surrogate
    in a file name) is not modelled. *)
Definition loop_body (e : env) (typed : pystr) : M bool :=
  emit (Prompt (NL ++ py "You: ")) ;;
  let user_input := strip typed in
  if bool_decide (user_input = []) then
    print (CROSS_MARK
           ++ py " Please enter a command. Type 'help' for available commands.") ;;
    ret true
  else
    logging INFO (py "User input received: '" ++ user_input ++ py "'") ;;
    if str_eqb (str_lower user_input) (py "exit")
       || str_eqb (str_lower user_input) (py "quit") then
      logging INFO (py "Exiting the bot.") ;;
      ret false
    else if str_eqb (str_lower user_input) (py "help") then
      print (NL ++ py "Commands:") ;;
      print (py "ask <question> - Get a formula") ;;
      print (py "pdf <filename> <question> - Query a PDF") ;;
      print (py "list - Show available PDFs") ;;
      print (py "exit - Quit") ;;
      ret true
    else if str_eqb (str_lower user_input) (py "list") then
      files <- list_files e ;;
      print (match files with
             | [] => NL ++ py "No PDFs found"
             | _ :: _ => NL ++ py "Available PDFs:"
             end) ;;
      print_files files ;;
      ret true
    else if startswith (str_lower user_input) (py "pdf ") then
      let parts := split_max 2 user_input in
      if (length parts <? 3)%nat then
        print (py "Usage: pdf filename.pdf 'your question'") ;;
        ret true
      else
        answer <- query_pdf e (nth 1 parts []) (nth 2 parts []) ;;
        print answer ;;
        ret true
    else if startswith (str_lower user_input) (py "ask ") then
      answer <- get_formula e (drop 4 user_input) ;;
      print answer ;;
      ret true
    else
      print (CROSS_MARK
             ++ py " Invalid command. Type 'help' for available commands.") ;;
      ret true.

(** Where the loop stands after a finite sequence of input lines. *)
Inductive loop_status : Set :=
| AwaitingInput     (* in [input]: the lines given are consumed, what
                          comes next (a line, the end of the stream) is
                          not part of the run *)
| LoopLeft.         (* [break] was executed *)

(** [while True: ...] on the lines [inputs], the first lines of what is
    typed; each line comes with what the surroundings do while it is
    processed. *)
Fixpoint command_loop (inputs : list (env * pystr)) : M loop_status :=
  match inputs with
  | [] => ret AwaitingInput
  | (e, typed) :: rest =>
      continue <- loop_body e typed ;;
      if continue then command_loop rest else ret LoopLeft
  end.

(** [main()] *)
Definition main (model_load : res unit) (e0 : env)
    (inputs : list (env * pystr)) : M loop_status :=
  StudyBot_init model_load e0 ;;
  print (MAGNIFIER ++ py " AI Study Bot - Type 'help' for commands") ;;
  command_loop inputs.

End StudyBot.

(** The state in which the interpreter starts [main]. *)
Definition boot (disk : file_state) : state :=
  mkState ∅ disk [] [] [] [] [].

(** What has become of the process. *)
Inductive process : Type :=
| Running (st : state)                 (* inside the command loop *)
| Exited (status : Z) (st : state)     (* ended, with this exit status *)
| Crashed (e : exn) (st : state).      (* ended by an uncaught exception *)

Definition process_of (r : res loop_status * state) : process :=
  match r with
  | (Ret AwaitingInput, st) => Running st
  | (Ret LoopLeft, st) => Exited 0 st
  | (Raised (Exn (SystemExit status) _), st) => Exited status st
  | (Raised ex, st) => Crashed ex st
  end.

(** The process after [main] has consumed the lines [inputs]. *)
Definition run_process {RT : Runtime} (model_load : res unit) (e0 : env)
    (inputs : list (env * pystr)) (disk : file_state) : process :=
  process_of (main model_load e0 inputs (boot disk)).

(* ================================================================== *)
(** * A concrete runtime for ASCII text *)
(* ================================================================== *)

(** [str.lower] on ASCII text. *)
Definition ascii_lower (s : pystr) : pystr :=
  map (fun c => if (0x41 <=? c) && (c <=? 0x5A) then c + 0x20 else c) s.

(** [posixpath.join] of two components. *)
Definition posix_join (a b : pystr) : pystr :=
  if startswith b (py "/") then b
  else if bool_decide (a = []) || endswith a (py "/") then a ++ b
  else a ++ py "/" ++ b.

(** [str] of the scalar values; a container is shown by its type name
    only, which is not what Python prints. *)
Definition scalar_format (v : json) : pystr :=
  match v with
  | JNull => py "None"
  | JBool true => py "True"
  | JBool false => py "False"
  | JInt z =>
      py (DecimalString.NilZero.string_of_int (Z.to_int z))
  | JFloat literal => literal
  | JStr s => s
  | JList _ => py "<list>"
  | JDict _ => py "<dict>"
  end.

(** The runtime on which the examples are run: it agrees with Python on
    ASCII text, POSIX paths and scalar values. *)
Definition ascii_runtime : Runtime :=
  {| str_lower := ascii_lower;
     os_path_join := posix_join;
     format_object := scalar_format |}.

(** Surroundings in which the model answers [answer] to every prompt,
    writes succeed and the documents directory holds the PDF files
    [docs] (name, page texts). *)
Definition quiet_env (answer : pystr) (docs : list (pystr * list pystr))
  : env :=
  {| generate := fun _ => Ret answer;
     write_result := WriteOk;
     listdir := Ret (map fst docs);
     path_exists := fun p =>
       existsb (fun d => str_eqb p (py "documents/" ++ fst d)) docs;
     fitz_open := fun p =>
       match List.find (fun d => str_eqb p (py "documents/" ++ fst d)) docs with
       | Some d => Ret (map PageText (snd d))
       | None => Raised (Exn RuntimeError (py "Cannot open file"))
       end |}.

(** A model that fails on every prompt. *)
Definition model_failure : exn := Exn RuntimeError (py "model failure").

(** The surroundings [e], except that the model raises [model_failure]. *)
Definition with_failing_model (e : env) : env :=
  {| generate := fun _ => Raised model_failure;
     write_result := write_result e;
     listdir := listdir e;
     path_exists := path_exists e;
     fitz_open := fitz_open e |}.

(** The surroundings [e], except that [formulas.json] cannot be opened
    for writing and stays as [disk]. *)
Definition with_readonly_store (disk : file_state) (e : env) : env :=
  {| generate := generate e;
     write_result :=
       WriteError (py "[Errno 13] Permission denied: 'formulas.json'") disk;
     listdir := listdir e;
     path_exists := path_exists e;
     fitz_open := fitz_open e |}.

(** The surroundings [e], except that every path exists and opens as
    [doc]. *)
Definition with_pdf (doc : res (list page_item)) (e : env) : env :=
  {| generate := generate e;
     write_result := write_result e;
     listdir := listdir e;
     path_exists := fun _ => true;
     fitz_open := fun _ => doc |}.

(** The surroundings [e], except that the documents directory cannot be
    listed. *)
Definition with_listing (names : res (list pystr)) (e : env) : env :=
  {| generate := generate e;
     write_result := write_result e;
     listdir := names;
     path_exists := path_exists e;
     fitz_open := fitz_open e |}.

(** Ten readable pages. *)
Definition ten_pages : list pystr := repeat (py "page ") 10.

Definition bad_page : exn := Exn RuntimeError (py "bad page").

Definition no_directory : exn :=
  Exn FileNotFoundError
    (py "[Errno 2] No such file or directory: 'documents'").

(** A documents directory with a two-page PDF, a PDF whose pages hold
    only whitespace, an upper-case PDF name and a text file. *)
Definition demo_documents : list (pystr * list pystr) :=
  [ (py "notes.pdf", [py "Ohm's law. "; py "V = I R"]);
    (py "blank.pdf", [py "  "; NL]);
    (py "NOTES.PDF", [py "upper"]);
    (py "todo.txt", []) ].

Definition demo_env : env := quiet_env (py "R = V/I") demo_documents.

(** [{"formulas": {}}] on disk. *)
Definition empty_store : file_state := Document (JDict default_data).

(** [{"formulas": "not-a-map"}] on disk. *)
Definition not_a_map_store : file_state :=
  Document (JDict (<[py "formulas" := JStr (py "not-a-map")]> ∅)).

(** [[1, 2]] on disk: a top-level value that is not an object. *)
Definition list_store : file_state :=
  Document (JList [JInt 1; JInt 2]).

(** [{"other": 1}] on disk: an object without a "formulas" field. *)
Definition no_formulas_store : file_state :=
  Document (JDict (<[py "other" := JInt 1]> ∅)).

(* ================================================================== *)
(** * Notions used in the statements *)
(* ================================================================== *)

(** Between [st] and [st'] the model was not called, no PDF was opened,
    nothing was written, and the formula store is the same in memory and
    on disk. *)
Definition no_effects (st st' : state) : Prop :=
  formulas_db st' = formulas_db st
  /\ store_file st' = store_file st
  /\ model_calls st' = model_calls st
  /\ file_writes st' = file_writes st
  /\ pdf_opens st' = pdf_opens st.

(** The store files that loading resets, with the failure it reports:
    text that is not JSON, bytes that are not UTF-8, and an object whose
    "formulas" field is present and is not a mapping. *)
Inductive resets : file_state -> list N -> Prop :=
| resets_malformed why : resets (Malformed why) why
| resets_undecodable why : resets (Undecodable why) why
| resets_not_mapping d v :
    d !! py "formulas" = Some v ->
    isinstance_dict v = false ->
    resets (Document (JDict d))
      (py "Invalid structure: 'formulas' key is not a dictionary.").

(** The store files the specification calls invalid: content that does
    not parse, a top-level value that is not an object, and an object
    whose "formulas" field is missing or is not a mapping. *)
Definition spec_invalid_store (f : file_state) : Prop :=
  match f with
  | Malformed _ | Undecodable _ => True
  | Document (JDict d) =>
      match d !! py "formulas" with
      | Some (JDict _) => False
      | _ => True
      end
  | Document _ => True
  | Absent | Unreadable _ => False
  end.

(** The specification's reading of an input line: its command word is
    its first whitespace-separated part in lower case, and it supplies a
    filename and a question when two more parts follow. *)
Definition command_word {RT : Runtime} (typed : pystr) : pystr :=
  str_lower (hd [] (split_max 2 (strip typed))).

Definition supplies_filename_and_question (typed : pystr) : bool :=
  (3 <=? length (split_max 2 (strip typed)))%nat.

(** The messages of the command loop. *)
Definition input_prompt : output := Prompt (NL ++ py "You: ").

Definition pdf_usage : output :=
  Print (py "Usage: pdf filename.pdf 'your question'").

Definition invalid_command : output :=
  Print (CROSS_MARK
         ++ py " Invalid command. Type 'help' for available commands.").

(** The prompts sent to the model. *)
Definition formula_prompt (query : pystr) : pystr :=
  py "Provide the exact formula for " ++ query
  ++ py " with brief explanation. Use LaTeX math formatting with $$ when appropriate.".

Definition pdf_prompt (text question : pystr) : pystr :=
  py "Answer based on this document:" ++ NL ++ take (N.to_nat 10000) text
  ++ NL ++ NL ++ py "Question: " ++ question ++ NL ++ py "Answer:".

(** The text of the first [min(pageCount, 10)] pages, in page order. *)
Definition first_pages_text (texts : list pystr) : pystr :=
  concat (take (Nat.min (length texts) 10) texts).

(** How extracting the text of [filename] fails, with the message shown
    to the user: the path under the documents directory does not exist,
    or the document opens and its first [min(pageCount, 10)] pages hold
    nothing but whitespace. *)
Inductive extraction_fails {RT : Runtime} (e : env) (filename : list N)
  : list N -> Prop :=
| fails_not_found :
    path_exists e (os_path_join (py "documents") filename) = false ->
    extraction_fails e filename
      (py "File '" ++ filename ++ py "' not found.")
| fails_empty texts :
    path_exists e (os_path_join (py "documents") filename) = true ->
    fitz_open e (os_path_join (py "documents") filename)
    = Ret (map PageText texts) ->
    strip (first_pages_text texts) = [] ->
    extraction_fails e filename (py "The document is empty or unreadable.").

(** One operation of the program on its state: a call of one of the
    three [StudyBot] methods, or one iteration of the command loop, with
    whatever surroundings and whatever outcome. *)
Inductive step {RT : Runtime} : state -> state -> Prop :=
| step_get_formula e query r st st' :
    get_formula e query st = (r, st') -> step st st'
| step_query_pdf e filename question r st st' :
    query_pdf e filename question st = (r, st') -> step st st'
| step_list_files e r st st' :
    list_files e st = (r, st') -> step st st'
| step_loop_body e typed r st st' :
    loop_body e typed st = (r, st') -> step st st'.

(** [st'] is reached from [st] by any number of operations. *)
Definition later {RT : Runtime} : state -> state -> Prop := rtc step.

(** The document on disk is an object whose "formulas" field, an empty
    mapping when it is missing, is the in-memory store. *)
Definition in_sync (st : state) : Prop :=
  exists d,
    store_file st = Document (JDict d)
    /\ default (JDict ∅) (d !! py "formulas") = JDict (formulas_db st).

(** The document [get_formula] writes for the store [db]. *)
Definition store_document (db : gmap (list N) json) : json :=
  JDict (<[py "formulas" := JDict db]> ∅).

(** [isinstance(item, LoadError)] for an item of a document. *)
Definition is_load_error (item : page_item) : bool :=
  match item with LoadError _ => true | _ => false end.

(** What the [list] command prints for the names [files]. *)
Definition listing_output (files : list (list N)) : list output :=
  Print (match files with
         | [] => NL ++ py "No PDFs found"
         | _ :: _ => NL ++ py "Available PDFs:"
         end)
  :: map (fun f => Print (py "- " ++ f)) files.

(** How reading the text of [filename] raises [ex]: the document cannot
    be opened, or a page before the tenth has no readable text, or a page
    up to the eleventh cannot be loaded. *)
Inductive extraction_raises {RT : Runtime} (e : env) (filename : list N)
    (ex : exn) : Prop :=
| raises_on_open :
    fitz_open e (os_path_join (py "documents") filename) = Raised ex ->
    extraction_raises e filename ex
| raises_on_text texts rest :
    fitz_open e (os_path_join (py "documents") filename)
    = Ret (map PageText texts ++ PageError ex :: rest) ->
    (length texts < 10)%nat ->
    extraction_raises e filename ex
| raises_on_load texts rest :
    fitz_open e (os_path_join (py "documents") filename)
    = Ret (map PageText texts ++ LoadError ex :: rest) ->
    (length texts <= 10)%nat ->
    extraction_raises e filename ex.

(** The state once the prompt is written and the line [typed], which is
    not blank, is logged. *)
Definition after_input (typed : list N) (st : state) : state :=
  add_log (INFO, py "User input received: '" ++ strip typed ++ py "'")
    (add_output (Prompt (NL ++ py "You: ")) st).

(** A text without surrogate code points: what a UTF-8 standard output
    encodes. *)
Definition printable (s : list N) : bool :=
  forallb (fun c => negb ((0xD800 <=? c) && (c <=? 0xDFFF))) s.

Definition enter_command : output :=
  Print (CROSS_MARK
         ++ py " Please enter a command. Type 'help' for available commands.").

Arguments default_data : simpl never.

Ltac unfold_monad :=
  unfold bind, ret, raise, try_except, logging, print, emit,
    model_generate, dump_store, os_listdir, open_pdf, read_formulas_db,
    assign_formulas_db, py_get in *.

(* ================================================================== *)
(** * Strings *)
(* ================================================================== *)

Lemma startswith_spec (p s : pystr) :
  startswith s p = true <-> exists r, s = p ++ r.
Proof.
  revert s. induction p as [|a p IH]; intros s; cbn [startswith].
  - split; [intros _; exists s; reflexivity | destruct s; reflexivity].
  - destruct s as [|b s]; cbn [startswith].
    + split; [discriminate | intros [r Hr]; discriminate].
    + rewrite andb_true_iff, N.eqb_eq, IH. split.
      * intros [-> [r ->]]. exists r. reflexivity.
      * intros [r Hr]. injection Hr as -> ->. split; [reflexivity | eauto].
Qed.

Lemma endswith_spec (s p : pystr) :
  endswith s p = true <-> exists stem, s = stem ++ p.
Proof.
  unfold endswith. rewrite startswith_spec. split.
  - intros [r Hr]. exists (rev r).
    rewrite <- (rev_involutive s), Hr, rev_app_distr, rev_involutive.
    reflexivity.
  - intros [stem ->]. exists (rev stem). apply rev_app_distr.
Qed.

Lemma split_max_length (n : nat) (s : pystr) :
  (length (split_max n s) <= S n)%nat.
Proof.
  revert s. induction n as [|n IH]; intros s; simpl.
  - destruct (lstrip s); simpl; lia.
  - destruct (lstrip s) as [|c r]; simpl; [lia |].
    destruct (isspace c); simpl.
    + specialize (IH (c :: r)). lia.
    + destruct (span_word r) as [w rest]. simpl.
      specialize (IH rest). lia.
Qed.

Lemma default_data_formulas :
  default_data !! py "formulas" = Some (JDict ∅).
Proof. unfold default_data. apply lookup_insert_eq. Qed.

(* ================================================================== *)
(** * Loading the formula store *)
(* ================================================================== *)

Section Loading.
Context {RT : Runtime}.

(** Whatever [validate_and_fix_json] returns is an object whose
    "formulas" field, when present, is a mapping: [init_formulas_db]
    stores a [dict]. *)
Lemma validate_and_fix_json_returns_dict e st data st' :
  validate_and_fix_json e st = (Ret data, st') ->
  exists d, data = JDict d
    /\ isinstance_dict (default (JDict ∅) (d !! py "formulas")) = true.
Proof.
  unfold validate_and_fix_json, load_store. unfold_monad.
  destruct (store_file st) as [ | why | why | why | v]; cbn.
  - discriminate.
  - discriminate.
  - destruct (write_result e); cbn; [|discriminate].
    intros [= <- <-]. exists default_data.
    rewrite default_data_formulas. auto.
  - destruct (write_result e); cbn; [|discriminate].
    intros [= <- <-]. exists default_data.
    rewrite default_data_formulas. auto.
  - destruct v; cbn; try discriminate.
    destruct (isinstance_dict (default (JDict ∅) (d !! py "formulas")))
      eqn:Hd; cbn.
    + intros [= <- <-]. eauto.
    + destruct (write_result e); cbn; [|discriminate].
      intros [= <- <-]. exists default_data.
      rewrite default_data_formulas. auto.
Qed.

(** A store file that is reset, when the rewrite succeeds. *)
Lemma init_formulas_db_resets e st msg :
  write_result e = WriteOk ->
  resets (store_file st) msg ->
  init_formulas_db e st
  = (Ret tt,
     set_formulas_db ∅
       (add_file_write (JDict default_data) (Document (JDict default_data))
          (add_log (ERROR, py "Invalid JSON file: " ++ msg
                           ++ py ". Resetting to default.") st))).
Proof.
  intros Hw Hr.
  unfold init_formulas_db, validate_and_fix_json, load_store. unfold_monad.
  inversion Hr as [why Hf | why Hf | d v Hd Hv Hf]; cbn.
  - rewrite Hw; cbn. rewrite default_data_formulas. reflexivity.
  - rewrite Hw; cbn. rewrite default_data_formulas. reflexivity.
  - rewrite Hd; cbn. rewrite Hv; cbn. rewrite Hw; cbn.
    rewrite default_data_formulas. reflexivity.
Qed.

(** An object without a "formulas" field is accepted as it is. *)
Lemma init_formulas_db_accepts_missing_field e st d :
  store_file st = Document (JDict d) ->
  d !! py "formulas" = None ->
  init_formulas_db e st
  = (Ret tt, set_formulas_db ∅ (add_log (INFO, py "JSON file is valid.") st)).
Proof.
  intros Hf Hd.
  unfold init_formulas_db, validate_and_fix_json, load_store. unfold_monad.
  rewrite Hf; cbn. rewrite Hd; cbn. rewrite Hd; cbn. reflexivity.
Qed.

(** A valid store is loaded as it is. *)
Lemma init_formulas_db_loads_valid e st d formulas :
  store_file st = Document (JDict d) ->
  d !! py "formulas" = Some (JDict formulas) ->
  init_formulas_db e st
  = (Ret tt,
     set_formulas_db formulas (add_log (INFO, py "JSON file is valid.") st)).
Proof.
  intros Hf Hd.
  unfold init_formulas_db, validate_and_fix_json, load_store. unfold_monad.
  rewrite Hf; cbn. rewrite Hd; cbn. rewrite Hd; cbn. reflexivity.
Qed.

(** A top-level value that is not an object has no [get] method: the
    [AttributeError] is not among the exceptions the loader catches. *)
Lemma init_formulas_db_non_object_raises e st v :
  store_file st = Document v ->
  isinstance_dict v = false ->
  init_formulas_db e st
  = (Raised (Exn AttributeError
       (py "'" ++ type_name v ++ py "' object has no attribute 'get'")), st).
Proof.
  intros Hf Hv.
  unfold init_formulas_db, validate_and_fix_json, load_store. unfold_monad.
  rewrite Hf. destruct v; try discriminate; reflexivity.
Qed.

(** C1 (as the code behaves): when [formulas.json] is absent at process
    start, [open] raises [FileNotFoundError], which the loader does not
    catch; the process ends by that exception, before the command loop,
    with no file created and nothing reported. *)
Theorem C1_absent_store_file_ends_startup e0 inputs :
  run_process (Ret tt) e0 inputs Absent
  = Crashed (Exn FileNotFoundError
       (py "[Errno 2] No such file or directory: 'formulas.json'"))
      (boot Absent).
Proof. reflexivity. Qed.

(** What loading does reset, when the rewrite succeeds: a store file
    whose content is not JSON, or not UTF-8, or is an object whose
    "formulas" field is present and is not a mapping.  The failure is
    logged, the document on disk becomes [{"formulas": {}}] and the
    in-memory store is empty. *)
Lemma load_resets_corrupt_store e st msg :
  write_result e = WriteOk ->
  resets (store_file st) msg ->
  exists st',
    init_formulas_db e st = (Ret tt, st')
    /\ store_file st' = Document (JDict default_data)
    /\ file_writes st' = file_writes st ++ [JDict default_data]
    /\ formulas_db st' = ∅
    /\ log st' = log st ++ [(ERROR, py "Invalid JSON file: " ++ msg
                                   ++ py ". Resetting to default.")].
Proof.
  intros Hw Hr. eexists. split.
  - apply init_formulas_db_resets; eassumption.
  - cbn. auto.
Qed.

(** C2 (as the code behaves): two kinds of store file that the
    specification counts as invalid are not reset.  On [[1, 2]] the
    loader calls [get] on a list; the [AttributeError] is not caught and
    ends the process at start, the file left as it was.  On
    [{"other": 1}] the missing "formulas" field is taken for an empty
    mapping: the load succeeds, nothing is written and the file is left
    as it was. *)
Theorem C2_invalid_shapes_are_not_reset :
  (spec_invalid_store list_store
   /\ run_process (Ret tt) demo_env [] list_store
      = Crashed (Exn AttributeError
                   (py "'list' object has no attribute 'get'"))
          (boot list_store))
  /\ (spec_invalid_store no_formulas_store
      /\ exists st,
           init_formulas_db demo_env (boot no_formulas_store) = (Ret tt, st)
           /\ formulas_db st = ∅
           /\ file_writes st = []
           /\ store_file st = no_formulas_store
           /\ store_file st <> Document (JDict default_data)).
Proof.
  split; split; try exact I.
  - vm_compute. reflexivity.
  - eexists. split; [vm_compute; reflexivity |].
    repeat split; try reflexivity.
    intros H. vm_compute in H. discriminate H.
Qed.

End Loading.

Example load_resets_not_a_map_store :
  exists st',
    init_formulas_db demo_env (boot not_a_map_store) = (Ret tt, st')
    /\ store_file st' = Document (JDict default_data)
    /\ file_writes st' = [JDict default_data]
    /\ formulas_db st' = ∅
    /\ log st' =
       [(ERROR, py "Invalid JSON file: "
                ++ py "Invalid structure: 'formulas' key is not a dictionary."
                ++ py ". Resetting to default.")].
Proof.
  apply (load_resets_corrupt_store demo_env (boot not_a_map_store) _ eq_refl).
  apply (resets_not_mapping _ (JStr (py "not-a-map"))); reflexivity.
Qed.

(* ================================================================== *)
(** * Formula queries *)
(* ================================================================== *)

Section Formulas.
Context {RT : Runtime}.

(** A query whose key is in the store is answered from the store; only
    a log record is added. *)
Lemma get_formula_hit e query st v :
  formulas_db st !! str_lower query = Some v ->
  get_formula e query st
  = (Ret (BLUE_BOOK ++ py " From Database:" ++ NL ++ format_value v),
     add_log (INFO, py "Formula for '" ++ str_lower query
                    ++ py "' found in database.") st).
Proof.
  intros Hv. unfold get_formula. unfold_monad. rewrite Hv. reflexivity.
Qed.

(** A query whose key is not in the store: the model is asked, the
    answer is stored under the lower-case key, and the whole store is
    written out, a failed write being logged only. *)
Lemma get_formula_miss e query st :
  formulas_db st !! str_lower query = None ->
  get_formula e query st
  = let st1 :=
      add_model_call (formula_prompt query)
        (add_log (INFO, py "Formula for '" ++ str_lower query
                        ++ py "' not found. Generating...") st) in
    match generate e (formula_prompt query) with
    | Raised ex => (Raised ex, st1)
    | Ret response =>
        let db := <[str_lower query := JStr response]> (formulas_db st) in
        let doc := JDict (<[py "formulas" := JDict db]> ∅) in
        (Ret (BRAIN ++ py " New Formula:" ++ NL ++ response),
         match write_result e with
         | WriteOk =>
             add_log (INFO, py "Formula for '" ++ str_lower query
                            ++ py "' saved to formulas.json.")
               (add_file_write doc (Document doc) (set_formulas_db db st1))
         | WriteError why after =>
             add_log (ERROR, py "Failed to save formula to file: " ++ why)
               (add_file_write doc after (set_formulas_db db st1))
         end)
    end.
Proof.
  intros Hv. unfold get_formula, formula_prompt. unfold_monad.
  rewrite Hv. cbn.
  destruct (generate e _) as [response | ex]; cbn; [|reflexivity].
  destruct (write_result e) as [|why after]; reflexivity.
Qed.

(** An entry of the in-memory store survives [get_formula]. *)
Lemma get_formula_keeps_entry e query st r st' key v :
  get_formula e query st = (r, st') ->
  formulas_db st !! key = Some v ->
  formulas_db st' !! key = Some v.
Proof.
  intros Hrun Hkey.
  destruct (formulas_db st !! str_lower query) as [w|] eqn:Hq.
  - rewrite (get_formula_hit _ _ _ _ Hq) in Hrun.
    injection Hrun as _ <-. exact Hkey.
  - rewrite (get_formula_miss _ _ _ Hq) in Hrun. cbn in Hrun.
    assert (str_lower query <> key) as Hne by congruence.
    destruct (generate e _) as [response | ex].
    + injection Hrun as _ <-.
      destruct (write_result e); cbn; rewrite lookup_insert_ne; auto.
    + injection Hrun as _ <-. exact Hkey.
Qed.

(** [get_formula] writes the store file only when it has generated a
    new formula. *)
Lemma get_formula_writes_only_when_generating e query st :
  (file_writes (snd (get_formula e query st)) = file_writes st
   /\ store_file (snd (get_formula e query st)) = store_file st)
  \/ (formulas_db st !! str_lower query = None
      /\ exists response,
           generate e (formula_prompt query) = Ret response).
Proof.
  destruct (formulas_db st !! str_lower query) as [v|] eqn:Hq.
  - left. rewrite (get_formula_hit _ _ _ _ Hq). cbn. auto.
  - rewrite (get_formula_miss _ _ _ Hq). cbn.
    destruct (generate e (formula_prompt query)) as [response | ex].
    + right. eauto.
    + left. cbn. auto.
Qed.

(** C9: a [get_formula] call that finds its key in the store returns the
    stored text under the "From Database" prefix, writes nothing, and
    leaves the document on disk and the in-memory map as they were (and
    the model is not called). *)
Theorem C9_cache_hit_writes_nothing e query st v :
  formulas_db st !! str_lower query = Some v ->
  exists st',
    get_formula e query st
    = (Ret (BLUE_BOOK ++ py " From Database:" ++ NL ++ format_value v), st')
    /\ file_writes st' = file_writes st
    /\ store_file st' = store_file st
    /\ formulas_db st' = formulas_db st
    /\ model_calls st' = model_calls st.
Proof.
  intros Hv. eexists. split; [apply get_formula_hit, Hv |]. cbn. auto.
Qed.

(** C6: on a cache miss for which the model has produced [response],
    when writing the store fails the failure is logged as an error, the
    call returns normally with the new text under the "New Formula"
    prefix, and the in-memory store holds the text under the lower-case
    key. *)
Theorem C6_failed_save_keeps_entry_and_answer e query st response why after :
  formulas_db st !! str_lower query = None ->
  generate e (formula_prompt query) = Ret response ->
  write_result e = WriteError why after ->
  exists st',
    get_formula e query st
    = (Ret (BRAIN ++ py " New Formula:" ++ NL ++ response), st')
    /\ formulas_db st' !! str_lower query = Some (JStr response)
    /\ formulas_db st'
       = <[str_lower query := JStr response]> (formulas_db st)
    /\ store_file st' = after
    /\ log st'
       = log st
         ++ [(INFO, py "Formula for '" ++ str_lower query
                    ++ py "' not found. Generating...");
             (ERROR, py "Failed to save formula to file: " ++ why)].
Proof.
  intros Hmiss Hgen Hwrite.
  rewrite (get_formula_miss _ _ _ Hmiss). cbn. rewrite Hgen, Hwrite.
  eexists. split; [reflexivity |]. cbn.
  rewrite lookup_insert_eq, <- app_assoc. auto.
Qed.

End Formulas.

Lemma C9_cache_hit_writes_nothing_witness :
  exists st',
    get_formula (RT := ascii_runtime) demo_env (py "Ohm's LAW")
      (set_formulas_db (<[py "ohm's law" := JStr (py "V = IR")]> ∅)
         (boot empty_store))
    = (Ret (BLUE_BOOK ++ py " From Database:" ++ NL ++ py "V = IR"), st')
    /\ file_writes st' = []
    /\ store_file st' = empty_store
    /\ formulas_db st' = <[py "ohm's law" := JStr (py "V = IR")]> ∅
    /\ model_calls st' = [].
Proof.
  refine (C9_cache_hit_writes_nothing (RT := ascii_runtime) demo_env
            (py "Ohm's LAW")
            (set_formulas_db (<[py "ohm's law" := JStr (py "V = IR")]> ∅)
               (boot empty_store))
            (JStr (py "V = IR")) _).
  vm_compute. reflexivity.
Defined.

Lemma C6_failed_save_keeps_entry_and_answer_witness :
  exists st',
    get_formula (RT := ascii_runtime)
      (with_readonly_store empty_store demo_env) (py "Resistance Formula")
      (boot empty_store)
    = (Ret (BRAIN ++ py " New Formula:" ++ NL ++ py "R = V/I"), st')
    /\ formulas_db st' !! py "resistance formula" = Some (JStr (py "R = V/I"))
    /\ formulas_db st' = <[py "resistance formula" := JStr (py "R = V/I")]> ∅
    /\ store_file st' = empty_store
    /\ log st'
       = [(INFO, py "Formula for '" ++ py "resistance formula"
                 ++ py "' not found. Generating...");
          (ERROR, py "Failed to save formula to file: "
                  ++ py "[Errno 13] Permission denied: 'formulas.json'")].
Proof.
  refine (C6_failed_save_keeps_entry_and_answer (RT := ascii_runtime)
            (with_readonly_store empty_store demo_env)
            (py "Resistance Formula") (boot empty_store) (py "R = V/I")
            (py "[Errno 13] Permission denied: 'formulas.json'") empty_store
            _ _ _).
  - vm_compute. reflexivity.
  - reflexivity.
  - reflexivity.
Defined.

(* ================================================================== *)
(** * PDF questions *)
(* ================================================================== *)

Lemma take_min_length {A} (n : nat) (l : list A) :
  take (Nat.min (length l) n) l = take n l.
Proof.
  destruct (Nat.le_gt_cases n (length l)) as [Hle | Hgt].
  - rewrite Nat.min_r by exact Hle. reflexivity.
  - rewrite Nat.min_l by lia. rewrite !take_ge by lia. reflexivity.
Qed.

(** The page loop changes nothing but the text it accumulates. *)
Lemma read_pages_state i items text st :
  snd (read_pages i items text st) = st.
Proof.
  revert i text. induction items as [|item rest IH]; intros i text.
  - reflexivity.
  - destruct item as [t | ex | ex]; cbn [read_pages];
      destruct (10 <=? i)%nat; try reflexivity.
    apply IH.
Qed.

(** On a document all of whose pages have text, the page loop returns
    the text of the pages before the tenth, in order. *)
Lemma read_pages_text i texts text st :
  read_pages i (map PageText texts) text st
  = (Ret (text ++ concat (take (10 - i) texts)), st).
Proof.
  revert i text. induction texts as [|t rest IH]; intros i text.
  - cbn. rewrite take_nil, app_nil_r. reflexivity.
  - cbn [map read_pages]. destruct (10 <=? i)%nat eqn:Hi.
    + apply Nat.leb_le in Hi. replace (10 - i)%nat with 0%nat by lia.
      cbn. rewrite app_nil_r. reflexivity.
    + apply Nat.leb_gt in Hi. rewrite IH.
      replace (10 - i)%nat with (S (10 - S i)) by lia.
      cbn. rewrite app_assoc. reflexivity.
Qed.

Lemma read_pages_first_pages texts st :
  read_pages 0 (map PageText texts) [] st
  = (Ret (first_pages_text texts), st).
Proof.
  rewrite read_pages_text. unfold first_pages_text.
  rewrite take_min_length. reflexivity.
Qed.

Section PdfQuestions.
Context {RT : Runtime}.

(** [query_pdf] never touches the formula store, in memory or on disk. *)
Lemma query_pdf_frame e filename question st :
  let st' := snd (query_pdf e filename question st) in
  formulas_db st' = formulas_db st
  /\ store_file st' = store_file st
  /\ file_writes st' = file_writes st.
Proof.
  unfold query_pdf. unfold_monad.
  destruct (path_exists e _); cbn; [|auto].
  destruct (fitz_open e _) as [doc | ex]; cbn.
  - destruct (read_pages 0 doc [] _) as [r st1] eqn:Hread.
    apply (f_equal snd) in Hread. rewrite read_pages_state in Hread.
    cbn in Hread. subst st1.
    destruct r as [text | ex]; cbn.
    + destruct (bool_decide (strip text = [])); cbn; [auto |].
      destruct (generate e _) as [response | ex]; cbn; [auto |].
      destruct (isinstance_Exception ex); cbn; auto.
    + destruct (isinstance_Exception ex); cbn; auto.
  - destruct (isinstance_Exception ex); cbn; auto.
Qed.

(** C4: when extraction fails, because the file does not exist under
    the documents directory or because its first [min(pageCount, 10)]
    pages hold no text other than whitespace, [query_pdf] returns the
    matching error message and the model is not called. *)
Theorem C4_extraction_failure_skips_model e filename question st message :
  extraction_fails e filename message ->
  exists st',
    query_pdf e filename question st
    = (Ret (CROSS_MARK ++ py " Error: " ++ message), st')
    /\ model_calls st' = model_calls st.
Proof.
  intros Hfail. unfold query_pdf. unfold_monad.
  destruct Hfail as [Hex | texts Hex Hopen Hblank]; rewrite Hex; cbn.
  - eexists. split; reflexivity.
  - rewrite Hopen; cbn. rewrite read_pages_first_pages; cbn.
    rewrite bool_decide_true by exact Hblank. cbn.
    eexists. split; reflexivity.
Qed.

(** C5: for a PDF that exists, opens, and whose first
    [min(pageCount, 10)] pages hold text other than whitespace,
    [query_pdf] calls the model exactly once, on the prompt made of the
    first 10,000 characters of the concatenated text of those pages and
    of the question; when the model returns, its output is returned
    under the "PDF Answer" prefix. *)
Theorem C5_pdf_question_prompts_model_once e filename question st texts :
  path_exists e (os_path_join (py "documents") filename) = true ->
  fitz_open e (os_path_join (py "documents") filename)
  = Ret (map PageText texts) ->
  strip (first_pages_text texts) <> [] ->
  model_calls (snd (query_pdf e filename question st))
  = model_calls st ++ [pdf_prompt (first_pages_text texts) question]
  /\ (length (take (N.to_nat 10000) (first_pages_text texts))
      <= N.to_nat 10000)%nat
  /\ forall response,
       generate e (pdf_prompt (first_pages_text texts) question)
       = Ret response ->
       fst (query_pdf e filename question st)
       = Ret (PAGE_FACING_UP ++ py " PDF Answer:" ++ NL ++ response).
Proof.
  intros Hex Hopen Htext. unfold query_pdf, pdf_prompt. unfold_monad.
  rewrite Hex; cbn. rewrite Hopen; cbn.
  rewrite read_pages_first_pages; cbn.
  rewrite bool_decide_false by exact Htext. cbn.
  split; [| split].
  - destruct (generate e _) as [response | ex]; cbn; [reflexivity |].
    destruct (isinstance_Exception ex); reflexivity.
  - rewrite length_take. lia.
  - intros response Hgen. rewrite Hgen. reflexivity.
Qed.

End PdfQuestions.

Lemma C4_extraction_failure_skips_model_witness :
  (exists st',
     query_pdf (RT := ascii_runtime) demo_env (py "missing.pdf")
       (py "What is Ohm's law?") (boot empty_store)
     = (Ret (CROSS_MARK ++ py " Error: "
             ++ py "File '" ++ py "missing.pdf" ++ py "' not found."), st')
     /\ model_calls st' = [])
  /\ (exists st',
        query_pdf (RT := ascii_runtime) demo_env (py "blank.pdf")
          (py "What is Ohm's law?") (boot empty_store)
        = (Ret (CROSS_MARK ++ py " Error: "
                ++ py "The document is empty or unreadable."), st')
        /\ model_calls st' = []).
Proof.
  split.
  - refine (C4_extraction_failure_skips_model (RT := ascii_runtime) demo_env
              (py "missing.pdf") (py "What is Ohm's law?") (boot empty_store)
              _ _).
    apply fails_not_found. vm_compute. reflexivity.
  - refine (C4_extraction_failure_skips_model (RT := ascii_runtime) demo_env
              (py "blank.pdf") (py "What is Ohm's law?") (boot empty_store)
              _ _).
    apply (fails_empty _ _ [py "  "; NL]); vm_compute; reflexivity.
Defined.

Lemma C5_pdf_question_prompts_model_once_witness :
  model_calls
    (snd (query_pdf (RT := ascii_runtime) demo_env (py "notes.pdf")
            (py "What is Ohm's law?") (boot empty_store)))
  = [pdf_prompt (py "Ohm's law. " ++ py "V = I R") (py "What is Ohm's law?")]
  /\ (length (take (N.to_nat 10000) (py "Ohm's law. " ++ py "V = I R"))
      <= N.to_nat 10000)%nat
  /\ forall response,
       generate demo_env
         (pdf_prompt (py "Ohm's law. " ++ py "V = I R")
            (py "What is Ohm's law?"))
       = Ret response ->
       fst (query_pdf (RT := ascii_runtime) demo_env (py "notes.pdf")
              (py "What is Ohm's law?") (boot empty_store))
       = Ret (PAGE_FACING_UP ++ py " PDF Answer:" ++ NL ++ response).
Proof.
  refine (C5_pdf_question_prompts_model_once (RT := ascii_runtime) demo_env
            (py "notes.pdf") (py "What is Ohm's law?") (boot empty_store)
            [py "Ohm's law. "; py "V = I R"] _ _ _).
  - vm_compute. reflexivity.
  - vm_compute. reflexivity.
  - vm_compute. discriminate.
Defined.

(* ================================================================== *)
(** * Listing the documents *)
(* ================================================================== *)

Section Listing.

(** [list_files] never touches anything but the log. *)
Lemma list_files_frame e st :
  let st' := snd (list_files e st) in
  formulas_db st' = formulas_db st
  /\ store_file st' = store_file st
  /\ model_calls st' = model_calls st
  /\ file_writes st' = file_writes st
  /\ pdf_opens st' = pdf_opens st.
Proof.
  unfold list_files. unfold_monad.
  destruct (listdir e) as [names | ex]; cbn; [auto 6 |].
  destruct (isinstance_Exception ex); cbn; auto 6.
Qed.

(** What [list_files] returns. *)
Lemma list_files_result e st :
  fst (list_files e st)
  = match listdir e with
    | Ret names => Ret (List.filter (fun f => endswith f (py ".pdf")) names)
    | Raised ex => if isinstance_Exception ex then Ret [] else Raised ex
    end.
Proof.
  unfold list_files. unfold_monad.
  destruct (listdir e) as [names | ex]; cbn; [reflexivity |].
  destruct (isinstance_Exception ex); reflexivity.
Qed.

(** C10: [list_files] compares the suffix exactly: when the directory
    can be read, it returns, in directory order, the names that end with
    the four characters [.pdf]; a name is in the result exactly when it
    is in the directory and has that suffix, and [NOTES.PDF] is in no
    result. *)
Theorem C10_list_files_suffix_is_case_sensitive e st :
  (forall names, listdir e = Ret names ->
     exists files,
       fst (list_files e st) = Ret files
       /\ files = List.filter (fun f => endswith f (py ".pdf")) names
       /\ forall f, In f files
                    <-> In f names /\ exists stem, f = stem ++ py ".pdf")
  /\ (forall files, fst (list_files e st) = Ret files ->
        ~ In (py "NOTES.PDF") files).
Proof.
  rewrite list_files_result. split.
  - intros names ->. eexists. split; [reflexivity |]. split; [reflexivity |].
    intros f. rewrite filter_In, endswith_spec. reflexivity.
  - intros files Hfiles Hin.
    destruct (listdir e) as [names | ex].
    + injection Hfiles as <-. apply filter_In in Hin as [_ Hsuffix].
      vm_compute in Hsuffix. discriminate Hsuffix.
    + destruct (isinstance_Exception ex); [|discriminate].
      injection Hfiles as <-. destruct Hin.
Qed.

End Listing.

Lemma C10_list_files_suffix_is_case_sensitive_witness :
  (exists files,
     fst (list_files demo_env (boot empty_store)) = Ret files
     /\ files = List.filter (fun f => endswith f (py ".pdf"))
                  (map fst demo_documents)
     /\ forall f, In f files
                  <-> In f (map fst demo_documents)
                      /\ exists stem, f = stem ++ py ".pdf")
  /\ ~ In (py "NOTES.PDF") [py "notes.pdf"; py "blank.pdf"].
Proof.
  split.
  - exact (proj1 (C10_list_files_suffix_is_case_sensitive demo_env
                    (boot empty_store)) (map fst demo_documents) eq_refl).
  - refine (proj2 (C10_list_files_suffix_is_case_sensitive demo_env
                     (boot empty_store)) _ _).
    vm_compute. reflexivity.
Defined.

(* ================================================================== *)
(** * The command loop *)
(* ================================================================== *)

Lemma no_effects_refl st : no_effects st st.
Proof. unfold no_effects. auto 6. Qed.

Lemma no_effects_trans st1 st2 st3 :
  no_effects st1 st2 -> no_effects st2 st3 -> no_effects st1 st3.
Proof.
  unfold no_effects. intros (? & ? & ? & ? & ?) (? & ? & ? & ? & ?).
  repeat split; congruence.
Qed.

(** Printing the file names only writes to the console. *)
Lemma print_files_frame files st :
  exists st', print_files files st = (Ret tt, st')
    /\ no_effects st st' /\ log st' = log st.
Proof.
  revert st. induction files as [|f rest IH]; intros st; cbn [print_files].
  - eexists. split; [reflexivity |]. split; [apply no_effects_refl | auto].
  - unfold_monad.
    destruct (IH (add_output (Print (py "- " ++ f)) st))
      as (st' & -> & Heff & Hlog).
    eexists. split; [reflexivity |]. split; [| exact Hlog].
    eapply no_effects_trans; [| exact Heff]. unfold no_effects. cbn. auto 6.
Qed.

(** A line in lower case that starts with [pdf ] is none of the
    one-word commands. *)
Lemma pdf_prefix_is_no_keyword (r : pystr) :
  str_eqb (py "pdf " ++ r) (py "exit") = false
  /\ str_eqb (py "pdf " ++ r) (py "quit") = false
  /\ str_eqb (py "pdf " ++ r) (py "help") = false
  /\ str_eqb (py "pdf " ++ r) (py "list") = false.
Proof.
  unfold str_eqb.
  repeat split; apply bool_decide_false; intros H; vm_compute in H;
    discriminate H.
Qed.

(** Nor is a line that starts with [ask ], which is no [pdf] line
    either. *)
Lemma ask_prefix_is_no_keyword (r : pystr) :
  str_eqb (py "ask " ++ r) (py "exit") = false
  /\ str_eqb (py "ask " ++ r) (py "quit") = false
  /\ str_eqb (py "ask " ++ r) (py "help") = false
  /\ str_eqb (py "ask " ++ r) (py "list") = false
  /\ startswith (py "ask " ++ r) (py "pdf ") = false.
Proof.
  unfold str_eqb.
  repeat split; try reflexivity; apply bool_decide_false; intros H;
    vm_compute in H; discriminate H.
Qed.

Section CommandLoop.
Context {RT : Runtime}.

#[local] Arguments split_max : simpl never.
#[local] Arguments strip : simpl never.
#[local] Arguments startswith : simpl never.
#[local] Arguments str_eqb : simpl never.
#[local] Arguments Nat.ltb : simpl never.
#[local] Arguments get_formula : simpl never.
#[local] Arguments query_pdf : simpl never.
#[local] Arguments list_files : simpl never.
#[local] Arguments print_files : simpl never.

(** An exception of the model on a formula query is not handled inside
    [get_formula]. *)
Lemma get_formula_propagates_model_failure e query st ex :
  formulas_db st !! str_lower query = None ->
  generate e (formula_prompt query) = Raised ex ->
  fst (get_formula e query st) = Raised ex.
Proof.
  intros Hmiss Hgen. rewrite (get_formula_miss _ _ _ Hmiss). cbn.
  rewrite Hgen. reflexivity.
Qed.

(** The same exception on a PDF question is caught inside [query_pdf]
    and turned into an error message. *)
Lemma query_pdf_catches_model_failure e filename question st texts ex :
  path_exists e (os_path_join (py "documents") filename) = true ->
  fitz_open e (os_path_join (py "documents") filename)
  = Ret (map PageText texts) ->
  strip (first_pages_text texts) <> [] ->
  generate e (pdf_prompt (first_pages_text texts) question) = Raised ex ->
  isinstance_Exception ex = true ->
  fst (query_pdf e filename question st)
  = Ret (CROSS_MARK ++ py " Error: " ++ exn_msg ex).
Proof.
  intros Hex Hopen Htext Hgen Hcls. unfold query_pdf, pdf_prompt in *.
  unfold_monad. rewrite Hex; cbn. rewrite Hopen; cbn.
  rewrite read_pages_first_pages; cbn.
  rewrite bool_decide_false by exact Htext. cbn.
  rewrite Hgen; cbn. rewrite Hcls. reflexivity.
Qed.

(** An [ask] line: the rest of the line after the fourth character is
    the query; what [get_formula] returns is printed, what it raises
    leaves the iteration. *)
Lemma loop_body_ask e typed st :
  strip typed <> [] ->
  startswith (str_lower (strip typed)) (py "ask ") = true ->
  loop_body e typed st
  = match get_formula e (drop 4 (strip typed))
            (add_log (INFO, py "User input received: '" ++ strip typed
                            ++ py "'")
               (add_output input_prompt st)) with
    | (Ret answer, st1) => (Ret true, add_output (Print answer) st1)
    | (Raised ex, st1) => (Raised ex, st1)
    end.
Proof.
  intros Hline Hask. unfold loop_body. unfold_monad. cbn.
  rewrite bool_decide_false by exact Hline. cbn.
  destruct (proj1 (startswith_spec _ _) Hask) as [r Hr].
  rewrite Hr.
  destruct (ask_prefix_is_no_keyword r) as (-> & -> & -> & -> & ->). cbn.
  rewrite <- Hr, Hask.
  destruct (get_formula e _ _) as [[answer | ex] st1]; reflexivity.
Qed.

(** On an [ask] line whose key is not in the store, an exception of the
    model leaves the loop: the lines that follow are not processed. *)
Lemma ask_with_failing_model_leaves_loop e typed rest st ex :
  strip typed <> [] ->
  startswith (str_lower (strip typed)) (py "ask ") = true ->
  formulas_db st !! str_lower (drop 4 (strip typed)) = None ->
  generate e (formula_prompt (drop 4 (strip typed))) = Raised ex ->
  fst (command_loop ((e, typed) :: rest) st) = Raised ex.
Proof.
  intros Hline Hask Hmiss Hgen. cbn [command_loop]. unfold bind.
  rewrite (loop_body_ask _ _ _ Hline Hask).
  rewrite get_formula_miss by exact Hmiss. cbn. rewrite Hgen. reflexivity.
Qed.

(** An entry of the in-memory store survives an iteration of the loop. *)
Lemma loop_body_keeps_entry e typed st r st' key v :
  loop_body e typed st = (r, st') ->
  formulas_db st !! key = Some v ->
  formulas_db st' !! key = Some v.
Proof.
  intros Hrun Hkey. unfold loop_body in Hrun. unfold_monad. cbn in Hrun.
  destruct (bool_decide (strip typed = [])); cbn in Hrun.
  { injection Hrun as _ <-. exact Hkey. }
  destruct (str_eqb _ (py "exit") || str_eqb _ (py "quit")); cbn in Hrun.
  { injection Hrun as _ <-. exact Hkey. }
  destruct (str_eqb _ (py "help")); cbn in Hrun.
  { injection Hrun as _ <-. exact Hkey. }
  destruct (str_eqb _ (py "list")); cbn in Hrun.
  { match type of Hrun with
    | context [list_files e ?s] =>
        pose proof (list_files_frame e s) as (Hdb & _);
        destruct (list_files e s) as [[files | ex] st1]
    end; cbn in *.
    - match type of Hrun with
      | context [print_files files ?s] =>
          destruct (print_files_frame files s)
            as (st2 & Hprint & (Hdb2 & _) & _); rewrite Hprint in Hrun
      end.
      injection Hrun as _ <-. cbn in *. congruence.
    - injection Hrun as _ <-. congruence. }
  destruct (startswith _ (py "pdf ")); cbn in Hrun.
  { destruct (length _ <? 3)%nat; cbn in Hrun.
    - injection Hrun as _ <-. exact Hkey.
    - match type of Hrun with
      | context [query_pdf e ?f ?q ?s] =>
          pose proof (query_pdf_frame e f q s) as (Hdb & _);
          destruct (query_pdf e f q s) as [[answer | ex] st1]
      end; cbn in *; injection Hrun as _ <-; cbn; congruence. }
  destruct (startswith _ (py "ask ")); cbn in Hrun.
  { match type of Hrun with
    | context [get_formula e ?q ?s] =>
        pose proof (fun r s' (H : get_formula e q s = (r, s')) =>
                      get_formula_keeps_entry e q s r s' key v H Hkey)
          as Hkeep;
        destruct (get_formula e q s) as [[answer | ex] st1]
    end; cbn in *; injection Hrun as _ <-; cbn; eapply Hkeep; reflexivity. }
  injection Hrun as _ <-. exact Hkey.
Qed.

(** A non-empty line that, in lower case, starts with [pdf ] and has
    fewer than three parts gets the usage message; a line that, in lower
    case, is the bare word [pdf] gets the invalid-command message.  In
    both cases the loop goes on and neither [query_pdf] nor the model is
    called. *)
Lemma pdf_prefix_without_both_arguments e typed st :
  strip typed <> [] ->
  (startswith (str_lower (strip typed)) (py "pdf ") = true ->
   (length (split_max 2 (strip typed)) < 3)%nat ->
   exists st',
     loop_body e typed st = (Ret true, st')
     /\ stdout st' = stdout st ++ [input_prompt; pdf_usage]
     /\ no_effects st st')
  /\ (str_lower (strip typed) = py "pdf" ->
      exists st',
        loop_body e typed st = (Ret true, st')
        /\ stdout st' = stdout st ++ [input_prompt; invalid_command]
        /\ no_effects st st').
Proof.
  intros Hline. split.
  - intros Hpdf Hparts. unfold loop_body. unfold_monad. cbn.
    rewrite bool_decide_false by exact Hline. cbn.
    destruct (proj1 (startswith_spec _ _) Hpdf) as [r Hr].
    rewrite Hr.
    destruct (pdf_prefix_is_no_keyword r) as (-> & -> & -> & ->). cbn.
    rewrite <- Hr, Hpdf.
    rewrite (proj2 (Nat.ltb_lt _ _) Hparts). cbn.
    eexists. split; [reflexivity |]. cbn. rewrite <- app_assoc.
    split; [reflexivity | unfold no_effects; cbn; auto 6].
  - intros Hpdf. unfold loop_body. unfold_monad. cbn.
    rewrite bool_decide_false by exact Hline. cbn.
    rewrite Hpdf. cbn.
    eexists. split; [reflexivity |]. cbn. rewrite <- app_assoc.
    split; [reflexivity | unfold no_effects; cbn; auto 6].
Qed.

End CommandLoop.

(** A line that in lower case starts with the word [pdf] is none of the
    one-word commands and no [ask] line. *)
Lemma pdf_word_is_no_keyword (r : pystr) :
  str_eqb (py "pdf" ++ r) (py "exit") = false
  /\ str_eqb (py "pdf" ++ r) (py "quit") = false
  /\ str_eqb (py "pdf" ++ r) (py "help") = false
  /\ str_eqb (py "pdf" ++ r) (py "list") = false
  /\ startswith (py "pdf" ++ r) (py "ask ") = false.
Proof.
  unfold str_eqb.
  repeat split; try reflexivity; apply bool_decide_false; intros H;
    vm_compute in H; discriminate H.
Qed.

Section PdfCommand.
Context {RT : Runtime}.

#[local] Arguments split_max : simpl never.
#[local] Arguments strip : simpl never.
#[local] Arguments startswith : simpl never.
#[local] Arguments str_eqb : simpl never.
#[local] Arguments Nat.ltb : simpl never.
#[local] Arguments get_formula : simpl never.
#[local] Arguments query_pdf : simpl never.

(** C8 (amended): for every non-empty line whose command word is [pdf]
    (its first part, in lower case, is [pdf], and the line in lower case
    starts with it, as it does when [str.lower] works character by
    character) and which does not supply both a filename and a
    question, the loop goes on and neither [query_pdf] nor the model is
    called: no PDF is opened, no prompt is sent, nothing is written.
    What is printed is the usage message when the word is followed by a
    space, and the invalid-command message otherwise (the bare word, or
    the word followed by a tab or another whitespace character). *)
Theorem C8_pdf_without_both_arguments e typed st :
  strip typed <> [] ->
  command_word typed = py "pdf" ->
  startswith (str_lower (strip typed)) (command_word typed) = true ->
  supplies_filename_and_question typed = false ->
  exists st',
    loop_body e typed st = (Ret true, st')
    /\ stdout st'
       = stdout st
         ++ [input_prompt;
             if startswith (str_lower (strip typed)) (py "pdf ")
             then pdf_usage else invalid_command]
    /\ no_effects st st'.
Proof.
  intros Hline Hword Hstart Hargs. rewrite Hword in Hstart.
  unfold supplies_filename_and_question in Hargs.
  apply Nat.leb_gt in Hargs.
  destruct (startswith (str_lower (strip typed)) (py "pdf ")) eqn:Hspace.
  - exact (proj1 (pdf_prefix_without_both_arguments e typed st Hline)
             Hspace Hargs).
  - destruct (proj1 (startswith_spec _ _) Hstart) as [r Hr].
    unfold loop_body. unfold_monad. cbn.
    rewrite bool_decide_false by exact Hline. cbn.
    rewrite Hr in *.
    destruct (pdf_word_is_no_keyword r) as (-> & -> & -> & -> & ->).
    rewrite Hspace. cbn.
    eexists. split; [reflexivity |]. cbn. rewrite <- app_assoc.
    split; [reflexivity | unfold no_effects; cbn; auto 6].
Qed.

End PdfCommand.

Lemma C8_pdf_without_both_arguments_witness :
  (exists st',
     loop_body (RT := ascii_runtime) demo_env (py "PDF notes.pdf")
       (boot empty_store)
     = (Ret true, st')
     /\ stdout st' = [input_prompt; pdf_usage]
     /\ no_effects (boot empty_store) st')
  /\ (exists st',
        loop_body (RT := ascii_runtime) demo_env (py "pdf")
          (boot empty_store)
        = (Ret true, st')
        /\ stdout st' = [input_prompt; invalid_command]
        /\ no_effects (boot empty_store) st')
  /\ (exists st',
        loop_body (RT := ascii_runtime) demo_env
          (py "pdf" ++ [0x09] ++ py "notes.pdf") (boot empty_store)
        = (Ret true, st')
        /\ stdout st' = [input_prompt; invalid_command]
        /\ no_effects (boot empty_store) st').
Proof.
  split; [| split].
  - refine (C8_pdf_without_both_arguments (RT := ascii_runtime)
              demo_env (py "PDF notes.pdf") (boot empty_store) _ _ _ _).
    + vm_compute. discriminate.
    + vm_compute. reflexivity.
    + vm_compute. reflexivity.
    + vm_compute. reflexivity.
  - refine (C8_pdf_without_both_arguments (RT := ascii_runtime)
              demo_env (py "pdf") (boot empty_store) _ _ _ _).
    + vm_compute. discriminate.
    + vm_compute. reflexivity.
    + vm_compute. reflexivity.
    + vm_compute. reflexivity.
  - refine (C8_pdf_without_both_arguments (RT := ascii_runtime)
              demo_env (py "pdf" ++ [0x09] ++ py "notes.pdf")
              (boot empty_store) _ _ _ _).
    + vm_compute. discriminate.
    + vm_compute. reflexivity.
    + vm_compute. reflexivity.
    + vm_compute. reflexivity.
Defined.

(** The claim C8 as stated fails on the line [pdf]: its command word is
    [pdf] and it supplies neither a filename nor a question, yet what is
    printed is the invalid-command message, not the usage message. *)
Lemma C8_bare_pdf_prints_invalid_command :
  command_word (RT := ascii_runtime) (py "pdf") = py "pdf"
  /\ supplies_filename_and_question (py "pdf") = false
  /\ stdout (snd (loop_body (RT := ascii_runtime) demo_env (py "pdf")
                    (boot empty_store)))
     = [input_prompt; invalid_command]
  /\ ~ In pdf_usage
         (stdout (snd (loop_body (RT := ascii_runtime) demo_env (py "pdf")
                         (boot empty_store)))).
Proof.
  split; [vm_compute; reflexivity |].
  split; [vm_compute; reflexivity |].
  split; [vm_compute; reflexivity |].
  intros Hin. vm_compute in Hin.
  destruct Hin as [H | [H | []]]; discriminate H.
Qed.

(** C7 (as the code behaves): after a successful start, the line
    [ask ohm's law] while the model raises an exception ends the
    process by that exception: [get_formula] has no handler around the
    model call and neither has [main].  The line that follows is never
    read. *)
Theorem C7_model_failure_on_ask_ends_process :
  exists st,
    run_process (RT := ascii_runtime) (Ret tt) demo_env
      [(with_failing_model demo_env, py "ask ohm's law");
       (demo_env, py "help")]
      empty_store
    = Crashed model_failure st
    /\ stdout st
       = [Print (MAGNIFIER ++ py " AI Study Bot - Type 'help' for commands");
          input_prompt]
    /\ model_calls st = [formula_prompt (py "ohm's law")].
Proof.
  eexists. split; [vm_compute; reflexivity |].
  split; vm_compute; reflexivity.
Qed.

(** The same failure on a PDF question is reported and the loop goes
    on to the next line. *)
Lemma model_failure_on_pdf_is_reported :
  exists st,
    run_process (RT := ascii_runtime) (Ret tt) demo_env
      [(with_failing_model demo_env, py "pdf notes.pdf What is Ohm's law?")]
      empty_store
    = Running st
    /\ last (stdout st)
       = Some (Print (CROSS_MARK ++ py " Error: " ++ py "model failure")).
Proof.
  eexists. split; [vm_compute; reflexivity |]. vm_compute. reflexivity.
Qed.

(** The end-to-end run of the specification, from an empty store: the
    first [ask] generates and persists, the second is served from the
    store without another call of the model. *)
Example ask_twice_generates_once :
  exists st,
    run_process (RT := ascii_runtime) (Ret tt) demo_env
      [(demo_env, py "ask resistance formula");
       (with_failing_model demo_env, py "ask resistance formula")]
      empty_store
    = Running st
    /\ stdout st
       = [Print (MAGNIFIER ++ py " AI Study Bot - Type 'help' for commands");
          input_prompt;
          Print (BRAIN ++ py " New Formula:" ++ NL ++ py "R = V/I");
          input_prompt;
          Print (BLUE_BOOK ++ py " From Database:" ++ NL ++ py "R = V/I")]
    /\ store_file st
       = Document
           (JDict (<[py "formulas" :=
                      JDict (<[py "resistance formula"
                               := JStr (py "R = V/I")]> ∅)]> ∅))
    /\ model_calls st = [formula_prompt (py "resistance formula")].
Proof.
  eexists. split; [vm_compute; reflexivity |].
  repeat split; vm_compute; reflexivity.
Qed.

(* ================================================================== *)
(** * The store across operations *)
(* ================================================================== *)

Section Caching.
Context {RT : Runtime}.

(** An entry of the in-memory store survives every operation. *)
Lemma step_keeps_entry st st' key v :
  step st st' ->
  formulas_db st !! key = Some v ->
  formulas_db st' !! key = Some v.
Proof.
  intros Hstep Hkey.
  destruct Hstep as [e query r st st' Hrun | e filename question r st st' Hrun
                    | e r st st' Hrun | e typed r st st' Hrun].
  - eapply get_formula_keeps_entry; eassumption.
  - pose proof (query_pdf_frame e filename question st) as (Hdb & _).
    rewrite Hrun in Hdb. cbn in Hdb. congruence.
  - pose proof (list_files_frame e st) as (Hdb & _).
    rewrite Hrun in Hdb. cbn in Hdb. congruence.
  - eapply loop_body_keeps_entry; eassumption.
Qed.

Lemma later_keeps_entry st st' key v :
  later st st' ->
  formulas_db st !! key = Some v ->
  formulas_db st' !! key = Some v.
Proof.
  intros Hlater. induction Hlater as [st | st1 st2 st3 Hstep _ IH].
  - auto.
  - intros Hkey. apply IH. eapply step_keeps_entry; eassumption.
Qed.


End Caching.


(* ================================================================== *)
(** * Start of the process *)
(* ================================================================== *)

Section Startup.
Context {RT : Runtime}.

(** X1: when the model cannot be loaded, the process exits with status 1
    before the store file is looked at: whatever the file is, it is
    neither read into memory nor written, only the failure is logged,
    nothing is printed and no input line is processed. *)
Theorem X1_model_load_failure_exits_before_store ex e0 inputs disk :
  isinstance_Exception ex = true ->
  run_process (Raised ex) e0 inputs disk
  = Exited 1
      (add_log (ERROR, py "Failed to load GPT4All model: " ++ exn_msg ex)
         (boot disk)).
Proof.
  intros Hex. unfold run_process, main, StudyBot_init. unfold_monad.
  rewrite Hex. reflexivity.
Qed.

(** A load that returns leaves memory and disk in agreement. *)
Lemma init_formulas_db_in_sync e st st' :
  init_formulas_db e st = (Ret tt, st') ->
  in_sync st'.
Proof.
  unfold init_formulas_db, validate_and_fix_json, load_store, in_sync.
  unfold_monad.
  destruct (store_file st) as [ | why | why | why | v] eqn:Hfile; cbn;
    try discriminate.
  - destruct (write_result e); cbn; [|discriminate].
    rewrite default_data_formulas. cbn. intros [= <-]. cbn.
    exists default_data. rewrite default_data_formulas. auto.
  - destruct (write_result e); cbn; [|discriminate].
    rewrite default_data_formulas. cbn. intros [= <-]. cbn.
    exists default_data. rewrite default_data_formulas. auto.
  - destruct v; cbn; try discriminate.
    destruct (default (JDict ∅) (d !! py "formulas")) as [ | | | | | |fs]
      eqn:Hd; cbn.
    all: try (destruct (write_result e); cbn; [|discriminate];
              rewrite default_data_formulas; cbn; intros [= <-]; cbn;
              exists default_data; rewrite default_data_formulas; auto).
    rewrite Hd. cbn. intros [= <-]. cbn. exists d. auto.
Qed.

(** X2: whenever loading returns, the document on disk is an object and
    the in-memory store is its "formulas" mapping (empty when the field
    is missing), whatever the file was before. *)
Theorem X2_load_leaves_memory_and_disk_in_sync e st st' :
  init_formulas_db e st = (Ret tt, st') ->
  in_sync st'.
Proof. apply init_formulas_db_in_sync. Qed.

(** X3: when the store file has to be reset and the rewrite fails, the
    [OSError] of the write leaves the loader: loading raises it, with
    the in-memory store still empty. *)
Theorem X3_failed_reset_write_is_not_handled e st msg why after :
  resets (store_file st) msg ->
  write_result e = WriteError why after ->
  exists st',
    init_formulas_db e st = (Raised (Exn OSError why), st')
    /\ store_file st' = after
    /\ formulas_db st' = formulas_db st.
Proof.
  intros Hr Hw.
  unfold init_formulas_db, validate_and_fix_json, load_store. unfold_monad.
  inversion Hr as [w Hf | w Hf | d v Hd Hv Hf]; cbn.
  - rewrite Hw; cbn. eexists. split; [reflexivity | cbn; auto].
  - rewrite Hw; cbn. eexists. split; [reflexivity | cbn; auto].
  - rewrite Hd; cbn. rewrite Hv; cbn. rewrite Hw; cbn.
    eexists. split; [reflexivity | cbn; auto].
Qed.

End Startup.

Lemma X1_model_load_failure_exits_before_store_witness :
  run_process (RT := ascii_runtime) (Raised model_failure) demo_env
    [(demo_env, py "help")] Absent
  = Exited 1
      (add_log (ERROR, py "Failed to load GPT4All model: "
                       ++ py "model failure")
         (boot Absent)).
Proof.
  exact (X1_model_load_failure_exits_before_store (RT := ascii_runtime)
           model_failure demo_env [(demo_env, py "help")] Absent eq_refl).
Defined.

Lemma X2_load_leaves_memory_and_disk_in_sync_witness :
  in_sync (snd (init_formulas_db demo_env (boot not_a_map_store))).
Proof.
  refine (X2_load_leaves_memory_and_disk_in_sync demo_env
            (boot not_a_map_store) _ _).
  vm_compute. reflexivity.
Defined.

Lemma X3_failed_reset_write_is_not_handled_witness :
  exists st',
    init_formulas_db (with_readonly_store not_a_map_store demo_env)
      (boot not_a_map_store)
    = (Raised (Exn OSError
                 (py "[Errno 13] Permission denied: 'formulas.json'")), st')
    /\ store_file st' = not_a_map_store
    /\ formulas_db st' = ∅.
Proof.
  refine (X3_failed_reset_write_is_not_handled
            (with_readonly_store not_a_map_store demo_env)
            (boot not_a_map_store) _ _ _ _ eq_refl).
  apply (resets_not_mapping _ (JStr (py "not-a-map"))); reflexivity.
Defined.

(* ================================================================== *)
(** * Saving and reloading the store *)
(* ================================================================== *)

Section Persistence.
Context {RT : Runtime}.

(** The state after a miss that generated [response] and saved. *)
Lemma get_formula_saved e query st response :
  formulas_db st !! str_lower query = None ->
  generate e (formula_prompt query) = Ret response ->
  write_result e = WriteOk ->
  formulas_db (snd (get_formula e query st))
  = <[str_lower query := JStr response]> (formulas_db st)
  /\ store_file (snd (get_formula e query st))
     = Document (store_document
                   (<[str_lower query := JStr response]> (formulas_db st))).
Proof.
  intros Hmiss Hgen Hw. rewrite (get_formula_miss _ _ _ Hmiss). cbn.
  rewrite Hgen, Hw. cbn. auto.
Qed.

(** X4: save and load are a round trip.  After a miss that generated a
    formula and saved it, loading from the file as written gives back
    the in-memory store of that moment, and loading does not rewrite the
    file. *)
Theorem X4_saved_store_loads_back e query st response e2 st2 :
  formulas_db st !! str_lower query = None ->
  generate e (formula_prompt query) = Ret response ->
  write_result e = WriteOk ->
  store_file st2 = store_file (snd (get_formula e query st)) ->
  exists st3,
    init_formulas_db e2 st2 = (Ret tt, st3)
    /\ formulas_db st3 = formulas_db (snd (get_formula e query st))
    /\ store_file st3 = store_file st2
    /\ file_writes st3 = file_writes st2.
Proof.
  intros Hmiss Hgen Hw Hfile.
  destruct (get_formula_saved _ _ _ _ Hmiss Hgen Hw) as [Hdb Hdisk].
  rewrite Hdisk in Hfile. unfold store_document in Hfile. rewrite Hdb.
  eexists. split.
  - eapply init_formulas_db_loads_valid; [exact Hfile |].
    apply lookup_insert_eq.
  - cbn. auto.
Qed.

(** X5: the whole store is written at every save.  When the save of one
    new formula fails and the save of a later one succeeds, the document
    on disk holds both entries and nothing but the "formulas" field. *)
Theorem X5_later_save_persists_unsaved_entry
    e1 e2 query1 query2 st response1 response2 why after :
  formulas_db st !! str_lower query1 = None ->
  generate e1 (formula_prompt query1) = Ret response1 ->
  write_result e1 = WriteError why after ->
  formulas_db st !! str_lower query2 = None ->
  str_lower query2 <> str_lower query1 ->
  generate e2 (formula_prompt query2) = Ret response2 ->
  write_result e2 = WriteOk ->
  store_file (snd (get_formula e2 query2 (snd (get_formula e1 query1 st))))
  = Document
      (store_document
         (<[str_lower query2 := JStr response2]>
            (<[str_lower query1 := JStr response1]> (formulas_db st)))).
Proof.
  intros Hmiss1 Hgen1 Hw1 Hmiss2 Hne Hgen2 Hw2.
  assert (formulas_db (snd (get_formula e1 query1 st))
          = <[str_lower query1 := JStr response1]> (formulas_db st)) as Hdb1.
  { rewrite (get_formula_miss _ _ _ Hmiss1). cbn. rewrite Hgen1, Hw1.
    reflexivity. }
  assert (formulas_db (snd (get_formula e1 query1 st)) !! str_lower query2
          = None) as Hmiss2'.
  { rewrite Hdb1, lookup_insert_ne by congruence. exact Hmiss2. }
  destruct (get_formula_saved _ _ _ _ Hmiss2' Hgen2 Hw2) as [_ ->].
  rewrite Hdb1. reflexivity.
Qed.

(** X6: the in-memory store only grows.  Whatever operations follow, no
    entry is removed and no entry changes its text. *)
Theorem X6_store_only_grows st st' :
  later st st' ->
  formulas_db st ⊆ formulas_db st'.
Proof.
  intros Hlater. apply map_subseteq_spec. intros key v Hkey.
  eapply later_keeps_entry; eassumption.
Qed.

(** What [get_formula] adds is a string under a lower-cased key. *)
Lemma get_formula_adds_lowercase_strings e query st key v :
  formulas_db (snd (get_formula e query st)) !! key = Some v ->
  formulas_db st !! key = Some v
  \/ exists q r, key = str_lower q /\ v = JStr r.
Proof.
  destruct (formulas_db st !! str_lower query) as [w|] eqn:Hq.
  - rewrite (get_formula_hit _ _ _ _ Hq). cbn. auto.
  - rewrite (get_formula_miss _ _ _ Hq). cbn.
    destruct (generate e _) as [response | ex]; cbn; [| auto].
    assert (<[str_lower query := JStr response]> (formulas_db st) !! key
            = Some v ->
            formulas_db st !! key = Some v
            \/ exists q r, key = str_lower q /\ v = JStr r) as Hins.
    { rewrite lookup_insert. case_decide as Hk.
      - intros [= <-]. right. eauto.
      - auto. }
    destruct (write_result e); cbn; exact Hins.
Qed.

End Persistence.

Lemma X4_saved_store_loads_back_witness :
  exists st3,
    init_formulas_db (with_failing_model demo_env)
      (boot (store_file
               (snd (get_formula (RT := ascii_runtime) demo_env
                       (py "Resistance Formula") (boot empty_store)))))
    = (Ret tt, st3)
    /\ formulas_db st3
       = formulas_db
           (snd (get_formula (RT := ascii_runtime) demo_env
                   (py "Resistance Formula") (boot empty_store)))
    /\ store_file st3
       = store_file
           (boot (store_file
                    (snd (get_formula (RT := ascii_runtime) demo_env
                            (py "Resistance Formula") (boot empty_store)))))
    /\ file_writes st3 = [].
Proof.
  refine (X4_saved_store_loads_back (RT := ascii_runtime) demo_env
            (py "Resistance Formula") (boot empty_store) (py "R = V/I")
            (with_failing_model demo_env)
            (boot (store_file
                     (snd (get_formula (RT := ascii_runtime) demo_env
                             (py "Resistance Formula") (boot empty_store)))))
            _ _ _ _).
  - vm_compute. reflexivity.
  - reflexivity.
  - reflexivity.
  - reflexivity.
Defined.

Lemma X5_later_save_persists_unsaved_entry_witness :
  store_file
    (snd (get_formula (RT := ascii_runtime) demo_env (py "Ohm's Law")
            (snd (get_formula (RT := ascii_runtime)
                    (with_readonly_store empty_store demo_env)
                    (py "Resistance Formula") (boot empty_store)))))
  = Document
      (store_document
         (<[py "ohm's law" := JStr (py "R = V/I")]>
            (<[py "resistance formula" := JStr (py "R = V/I")]> ∅))).
Proof.
  refine (X5_later_save_persists_unsaved_entry (RT := ascii_runtime)
            (with_readonly_store empty_store demo_env) demo_env
            (py "Resistance Formula") (py "Ohm's Law") (boot empty_store)
            (py "R = V/I") (py "R = V/I")
            (py "[Errno 13] Permission denied: 'formulas.json'") empty_store
            _ _ _ _ _ _ _).
  - vm_compute. reflexivity.
  - reflexivity.
  - reflexivity.
  - vm_compute. reflexivity.
  - vm_compute. discriminate.
  - reflexivity.
  - reflexivity.
Defined.

Lemma X6_store_only_grows_witness :
  formulas_db (boot empty_store)
  ⊆ formulas_db
      (snd (get_formula (RT := ascii_runtime) demo_env
              (py "Resistance Formula") (boot empty_store))).
Proof.
  refine (X6_store_only_grows (RT := ascii_runtime) (boot empty_store) _ _).
  eapply rtc_l; [| apply rtc_refl].
  eapply (step_get_formula (RT := ascii_runtime) demo_env
            (py "Resistance Formula")).
  apply surjective_pairing.
Defined.

(* ================================================================== *)
(** * Reading a PDF *)
(* ================================================================== *)

(** The page loop on a document that starts with readable pages, as
    long as the tenth page is not passed. *)
Lemma read_pages_prefix i texts tail text st :
  (i + length texts <= 10)%nat ->
  read_pages i (map PageText texts ++ tail) text st
  = read_pages (i + length texts) tail (text ++ concat texts) st.
Proof.
  revert i text. induction texts as [|t rest IH]; intros i text Hlen.
  - cbn. rewrite Nat.add_0_r, app_nil_r. reflexivity.
  - cbn in Hlen. cbn [map app read_pages length concat].
    destruct (10 <=? i)%nat eqn:Hi; [apply Nat.leb_le in Hi; lia |].
    rewrite IH by lia. rewrite <- app_assoc.
    replace (S i + length rest)%nat with (i + S (length rest))%nat by lia.
    reflexivity.
Qed.

Section PdfReading.
Context {RT : Runtime}.

(** What [query_pdf] raises is no [Exception]. *)
Lemma query_pdf_no_ordinary_exception e filename question st :
  match fst (query_pdf e filename question st) with
  | Ret _ => True
  | Raised ex => isinstance_Exception ex = false
  end.
Proof.
  unfold query_pdf. unfold_monad.
  destruct (path_exists e _); cbn; [| exact I].
  destruct (fitz_open e _) as [doc | ex]; cbn.
  - destruct (read_pages 0 doc [] _) as [[text | ex] st1]; cbn.
    + destruct (bool_decide (strip text = [])); cbn; [exact I |].
      destruct (generate e _) as [response | ex]; cbn; [exact I |].
      destruct (isinstance_Exception ex) eqn:Hex; cbn; [exact I | exact Hex].
    + destruct (isinstance_Exception ex) eqn:Hex; cbn; [exact I | exact Hex].
  - destruct (isinstance_Exception ex) eqn:Hex; cbn; [exact I | exact Hex].
Qed.

(** [query_pdf] calls the model at most once. *)
Lemma query_pdf_at_most_one_call e filename question st :
  model_calls (snd (query_pdf e filename question st)) = model_calls st
  \/ exists prompt,
       model_calls (snd (query_pdf e filename question st))
       = model_calls st ++ [prompt].
Proof.
  unfold query_pdf. unfold_monad.
  destruct (path_exists e _); cbn; [| auto].
  destruct (fitz_open e _) as [doc | ex]; cbn.
  - destruct (read_pages 0 doc [] _) as [r st1] eqn:Hread.
    apply (f_equal snd) in Hread. rewrite read_pages_state in Hread.
    cbn in Hread. subst st1.
    destruct r as [text | ex]; cbn.
    + destruct (bool_decide (strip text = [])); cbn; [auto |].
      destruct (generate e _) as [response | ex]; cbn; [eauto |].
      destruct (isinstance_Exception ex); cbn; eauto.
    + destruct (isinstance_Exception ex); cbn; auto.
  - destruct (isinstance_Exception ex); cbn; auto.
Qed.

(** X7: [query_pdf] lets no ordinary exception out.  Whatever the file
    system, the PDF library and the model do, it returns a string, or
    raises something that is not an [Exception] (an interrupt); and it
    calls the model at most once. *)
Theorem X7_query_pdf_raises_no_ordinary_exception e filename question st :
  match fst (query_pdf e filename question st) with
  | Ret _ => True
  | Raised ex => isinstance_Exception ex = false
  end
  /\ (model_calls (snd (query_pdf e filename question st)) = model_calls st
      \/ exists prompt,
           model_calls (snd (query_pdf e filename question st))
           = model_calls st ++ [prompt]).
Proof.
  split.
  - apply query_pdf_no_ordinary_exception.
  - apply query_pdf_at_most_one_call.
Qed.

(** X8: when the file exists and opening it or reading one of its first
    pages raises an ordinary exception, [query_pdf] returns the message
    of that exception as an error text, logs it, and does not call the
    model. *)
Theorem X8_extraction_exception_becomes_error_text
    e filename question st ex :
  path_exists e (os_path_join (py "documents") filename) = true ->
  extraction_raises e filename ex ->
  isinstance_Exception ex = true ->
  exists st',
    query_pdf e filename question st
    = (Ret (CROSS_MARK ++ py " Error: " ++ exn_msg ex), st')
    /\ model_calls st' = model_calls st
    /\ log st'
       = log st ++ [(ERROR, py "Error while processing PDF query: "
                            ++ exn_msg ex)].
Proof.
  intros Hpath Hraise Hex. unfold query_pdf. unfold_monad.
  rewrite Hpath; cbn.
  destruct Hraise as [Hopen | texts rest Hopen Hlen | texts rest Hopen Hlen];
    rewrite Hopen; cbn.
  - rewrite Hex. eexists. split; [reflexivity | cbn; auto].
  - rewrite (read_pages_prefix 0) by (cbn; lia). cbn [read_pages].
    destruct (10 <=? 0 + length texts)%nat eqn:Hi;
      [apply Nat.leb_le in Hi; lia |].
    cbn. rewrite Hex. eexists. split; [reflexivity | cbn; auto].
  - rewrite (read_pages_prefix 0) by (cbn; lia). cbn [read_pages].
    cbn. rewrite Hex. eexists. split; [reflexivity | cbn; auto].
Qed.

(** X9: nothing after the tenth page is read.  For a document with ten
    readable pages followed by anything that can be loaded, the prompt
    is built from the text of those ten pages only, even when the text
    of a later page could not be read. *)
Theorem X9_pages_after_the_tenth_are_not_read
    e filename question st texts item rest :
  path_exists e (os_path_join (py "documents") filename) = true ->
  fitz_open e (os_path_join (py "documents") filename)
  = Ret (map PageText texts ++ item :: rest) ->
  length texts = 10%nat ->
  is_load_error item = false ->
  strip (concat texts) <> [] ->
  model_calls (snd (query_pdf e filename question st))
  = model_calls st ++ [pdf_prompt (concat texts) question].
Proof.
  intros Hpath Hopen Hlen Hitem Htext. unfold query_pdf, pdf_prompt.
  unfold_monad. rewrite Hpath; cbn. rewrite Hopen; cbn.
  rewrite (read_pages_prefix 0) by (cbn; lia).
  replace (0 + length texts)%nat with 10%nat by lia.
  destruct item as [t | ex | ex]; [| | discriminate]; cbn.
  - rewrite bool_decide_false by exact Htext. cbn.
    destruct (generate e _) as [response | ex]; cbn; [reflexivity |].
    destruct (isinstance_Exception ex); reflexivity.
  - rewrite bool_decide_false by exact Htext. cbn.
    destruct (generate e _) as [response | ex']; cbn; [reflexivity |].
    destruct (isinstance_Exception ex'); reflexivity.
Qed.

End PdfReading.

Lemma X8_extraction_exception_becomes_error_text_witness :
  exists st',
    query_pdf (RT := ascii_runtime) (with_pdf (Raised bad_page) demo_env)
      (py "notes.pdf") (py "What is Ohm's law?") (boot empty_store)
    = (Ret (CROSS_MARK ++ py " Error: " ++ py "bad page"), st')
    /\ model_calls st' = []
    /\ log st'
       = [(ERROR, py "Error while processing PDF query: " ++ py "bad page")].
Proof.
  refine (X8_extraction_exception_becomes_error_text (RT := ascii_runtime)
            (with_pdf (Raised bad_page) demo_env) (py "notes.pdf")
            (py "What is Ohm's law?") (boot empty_store) bad_page
            eq_refl _ eq_refl).
  apply raises_on_open. reflexivity.
Defined.

Lemma X9_pages_after_the_tenth_are_not_read_witness :
  model_calls
    (snd (query_pdf (RT := ascii_runtime)
            (with_pdf (Ret (map PageText ten_pages
                            ++ PageError bad_page :: [LoadError bad_page]))
               demo_env)
            (py "notes.pdf") (py "What is Ohm's law?") (boot empty_store)))
  = [pdf_prompt (concat ten_pages) (py "What is Ohm's law?")].
Proof.
  refine (X9_pages_after_the_tenth_are_not_read (RT := ascii_runtime)
            (with_pdf (Ret (map PageText ten_pages
                            ++ PageError bad_page :: [LoadError bad_page]))
               demo_env)
            (py "notes.pdf") (py "What is Ohm's law?") (boot empty_store)
            ten_pages (PageError bad_page) [LoadError bad_page]
            eq_refl eq_refl eq_refl eq_refl _).
  vm_compute. discriminate.
Defined.

(* ================================================================== *)
(** * Listing and printing the documents *)
(* ================================================================== *)

(** What [print_files] does: one line per name, in order. *)
Lemma print_files_output files st :
  exists st',
    print_files files st = (Ret tt, st')
    /\ stdout st' = stdout st ++ map (fun f => Print (py "- " ++ f)) files
    /\ no_effects st st' /\ log st' = log st.
Proof.
  revert st. induction files as [|f rest IH]; intros st; cbn [print_files].
  - eexists. split; [reflexivity |]. cbn. rewrite app_nil_r.
    split; [reflexivity |]. split; [apply no_effects_refl | reflexivity].
  - unfold_monad.
    destruct (IH (add_output (Print (py "- " ++ f)) st))
      as (st' & -> & Hout & Heff & Hlog).
    eexists. split; [reflexivity |]. rewrite Hout. cbn.
    rewrite <- app_assoc. split; [reflexivity |]. split; [| exact Hlog].
    eapply no_effects_trans; [| exact Heff]. unfold no_effects. cbn. auto 6.
Qed.

(** [list_files] writes nothing to the console, and what it returns
    does not depend on the state. *)
Lemma list_files_quiet e st :
  stdout (snd (list_files e st)) = stdout st.
Proof.
  unfold list_files. unfold_monad.
  destruct (listdir e) as [names | ex]; cbn; [reflexivity |].
  destruct (isinstance_Exception ex); reflexivity.
Qed.

Lemma list_files_result_any_state e st st0 :
  fst (list_files e st) = fst (list_files e st0).
Proof. rewrite !list_files_result. reflexivity. Qed.

Section ListingMore.
Context {RT : Runtime}.

#[local] Arguments split_max : simpl never.
#[local] Arguments strip : simpl never.
#[local] Arguments startswith : simpl never.
#[local] Arguments str_eqb : simpl never.
#[local] Arguments list_files : simpl never.
#[local] Arguments print_files : simpl never.

(** What [list_files] raises is no [Exception]. *)
Lemma list_files_no_ordinary_exception e st :
  match fst (list_files e st) with
  | Ret _ => True
  | Raised ex => isinstance_Exception ex = false
  end.
Proof.
  rewrite list_files_result.
  destruct (listdir e) as [names | ex]; [exact I |].
  destruct (isinstance_Exception ex) eqn:Hex; [exact I | exact Hex].
Qed.

(** X10: [list_files] lets no ordinary exception out, and when the
    documents directory cannot be listed it returns the empty list and
    logs the error. *)
Theorem X10_unlistable_directory_gives_empty_list e st :
  match fst (list_files e st) with
  | Ret _ => True
  | Raised ex => isinstance_Exception ex = false
  end
  /\ forall ex,
       listdir e = Raised ex ->
       isinstance_Exception ex = true ->
       list_files e st
       = (Ret [],
          add_log (ERROR, py "Error listing files in 'documents' directory: "
                          ++ exn_msg ex) st).
Proof.
  unfold list_files. unfold_monad. split.
  - destruct (listdir e) as [names | ex]; cbn; [exact I |].
    destruct (isinstance_Exception ex) eqn:Hex; cbn; [exact I | exact Hex].
  - intros ex -> Hex. cbn. rewrite Hex. reflexivity.
Qed.

(** X11: when every name that [list_files] returns can be encoded by
    the standard output (it holds no lone surrogate, as the name of a
    file whose bytes are not UTF-8 does), the [list] command prints,
    after the prompt, the header and then one line ["- name"] for each
    of these names, in that order; the header says that no PDF was found
    exactly when the list is empty.  Nothing else happens, and the loop
    goes on. *)
Theorem X11_list_command_prints_each_name e typed st files :
  strip typed <> [] ->
  str_lower (strip typed) = py "list" ->
  fst (list_files e st) = Ret files ->
  forallb printable files = true ->
  exists st',
    loop_body e typed st = (Ret true, st')
    /\ stdout st' = stdout st ++ input_prompt :: listing_output files
    /\ no_effects st st'.
Proof.
  intros Hline Hlist Hfiles _. unfold loop_body. unfold_monad. cbn.
  rewrite bool_decide_false by exact Hline. cbn.
  rewrite Hlist.
  change (str_eqb (py "list") (py "exit")) with false.
  change (str_eqb (py "list") (py "quit")) with false.
  change (str_eqb (py "list") (py "help")) with false.
  change (str_eqb (py "list") (py "list")) with true.
  cbn.
  match goal with
  | |- context [list_files e ?s] =>
      pose proof (list_files_frame e s) as Hframe;
      pose proof (list_files_quiet e s) as Hquiet;
      pose proof (list_files_result_any_state e s st) as Hres;
      rewrite Hfiles in Hres;
      destruct (list_files e s) as [r st1]
  end.
  cbn in Hframe, Hquiet, Hres. subst r. cbn.
  match goal with
  | |- context [print_files files ?s] =>
      destruct (print_files_output files s)
        as (st2 & -> & Hout & Heff & _)
  end.
  cbn. eexists. split; [reflexivity |]. cbn. split.
  - rewrite Hout. cbn. rewrite Hquiet, <- !app_assoc. cbn.
    unfold listing_output. destruct files; reflexivity.
  - eapply no_effects_trans; [| exact Heff].
    unfold no_effects in *. cbn. exact Hframe.
Qed.

End ListingMore.

Lemma X10_unlistable_directory_gives_empty_list_witness :
  list_files (with_listing (Raised no_directory) demo_env) (boot empty_store)
  = (Ret [],
     add_log (ERROR, py "Error listing files in 'documents' directory: "
                     ++ py "[Errno 2] No such file or directory: 'documents'")
       (boot empty_store)).
Proof.
  exact (proj2 (X10_unlistable_directory_gives_empty_list
                  (with_listing (Raised no_directory) demo_env)
                  (boot empty_store))
           no_directory eq_refl eq_refl).
Defined.

Lemma X11_list_command_prints_each_name_witness :
  exists st',
    loop_body (RT := ascii_runtime) demo_env (py "  LIST ") (boot empty_store)
    = (Ret true, st')
    /\ stdout st'
       = [input_prompt; Print (NL ++ py "Available PDFs:");
          Print (py "- " ++ py "notes.pdf"); Print (py "- " ++ py "blank.pdf")]
    /\ no_effects (boot empty_store) st'.
Proof.
  refine (X11_list_command_prints_each_name (RT := ascii_runtime) demo_env
            (py "  LIST ") (boot empty_store)
            [py "notes.pdf"; py "blank.pdf"] _ _ _ _).
  - vm_compute. discriminate.
  - vm_compute. reflexivity.
  - vm_compute. reflexivity.
  - vm_compute. reflexivity.
Defined.

(* ================================================================== *)
(** * What every iteration of the loop preserves *)
(* ================================================================== *)

Lemma strip_of_whitespace (s : pystr) :
  forallb isspace s = true -> strip s = [].
Proof.
  intros Hs. unfold strip.
  assert (lstrip s = []) as ->.
  { induction s as [|c r IH]; [reflexivity |].
    cbn in Hs. apply andb_true_iff in Hs as [Hc Hr].
    cbn [lstrip]. rewrite Hc. auto. }
  reflexivity.
Qed.

Section LoopInvariant.
Context {RT : Runtime}.

#[local] Arguments split_max : simpl never.
#[local] Arguments strip : simpl never.
#[local] Arguments startswith : simpl never.
#[local] Arguments str_eqb : simpl never.
#[local] Arguments Nat.ltb : simpl never.
#[local] Arguments get_formula : simpl never.
#[local] Arguments query_pdf : simpl never.
#[local] Arguments list_files : simpl never.
#[local] Arguments print_files : simpl never.

(** A relation between the state before and the state after, kept by
    logging, by printing and by the three methods in surroundings that
    are [good]. *)
Variable R : state -> state -> Prop.
Variable good : env -> Prop.
Hypothesis R_refl : forall st, R st st.
Hypothesis R_trans : forall st1 st2 st3, R st1 st2 -> R st2 st3 -> R st1 st3.
Hypothesis R_log : forall r st, R st (add_log r st).
Hypothesis R_out : forall o st, R st (add_output o st).
Hypothesis R_get_formula :
  forall e query st, good e -> R st (snd (get_formula e query st)).
Hypothesis R_query_pdf :
  forall e filename question st,
    good e -> R st (snd (query_pdf e filename question st)).
Hypothesis R_list_files :
  forall e st, good e -> R st (snd (list_files e st)).

Ltac related :=
  repeat match goal with
    | |- R ?s ?s => apply R_refl
    | H : R ?s ?t |- R ?s ?t => exact H
    | |- R _ (add_output _ ?s) => apply (R_trans _ s); [| apply R_out]
    | |- R _ (add_log _ ?s) => apply (R_trans _ s); [| apply R_log]
    | H : R ?s ?t |- R _ ?t => apply (R_trans _ s); [| exact H]
    end.

Lemma print_files_related files st :
  R st (snd (print_files files st)).
Proof.
  revert st. induction files as [|f rest IH]; intros st.
  - apply R_refl.
  - change (print_files (f :: rest) st)
      with (print_files rest (add_output (Print (py "- " ++ f)) st)).
    eapply R_trans; [apply R_out | apply IH].
Qed.

(** One iteration of the loop keeps the relation. *)
Lemma loop_body_related e typed st :
  good e -> R st (snd (loop_body e typed st)).
Proof.
  intros Hgood. unfold loop_body. unfold_monad. cbn.
  destruct (bool_decide (strip typed = [])); cbn; [related |].
  destruct (str_eqb _ (py "exit") || str_eqb _ (py "quit")); cbn;
    [related |].
  destruct (str_eqb _ (py "help")); cbn; [related |].
  destruct (str_eqb _ (py "list")); cbn.
  { match goal with
    | |- context [list_files e ?s] =>
        pose proof (R_list_files e s Hgood) as Hop;
        destruct (list_files e s) as [[files | ex] st1]
    end; cbn in *; [| related].
    match goal with
    | |- context [print_files files ?s] =>
        pose proof (print_files_related files s) as Hprint;
        destruct (print_files_output files s) as (st2 & Hrun & _);
        rewrite Hrun in *
    end.
    cbn in *. related. }
  destruct (startswith _ (py "pdf ")); cbn.
  { destruct (length _ <? 3)%nat; cbn; [related |].
    match goal with
    | |- context [query_pdf e ?f ?q ?s] =>
        pose proof (R_query_pdf e f q s Hgood) as Hop;
        destruct (query_pdf e f q s) as [[answer | ex] st1]
    end; cbn in *; related. }
  destruct (startswith _ (py "ask ")); cbn; [| related].
  match goal with
  | |- context [get_formula e ?q ?s] =>
      pose proof (R_get_formula e q s Hgood) as Hop;
      destruct (get_formula e q s) as [[answer | ex] st1]
  end; cbn in *; related.
Qed.

(** So does the loop on any lines whose surroundings are [good]. *)
Lemma command_loop_related inputs st :
  Forall (fun line => good (fst line)) inputs ->
  R st (snd (command_loop inputs st)).
Proof.
  intros Hgood. revert st.
  induction Hgood as [|[e typed] rest He _ IH]; intros st.
  - apply R_refl.
  - cbn [command_loop]. unfold bind.
    pose proof (loop_body_related e typed st He) as Hbody.
    destruct (loop_body e typed st) as [[[|] | ex] st1]; cbn in *.
    + eapply R_trans; [exact Hbody | apply IH].
    + exact Hbody.
    + exact Hbody.
Qed.

End LoopInvariant.

(* ================================================================== *)
(** * What one iteration of the loop can do *)
(* ================================================================== *)

Section LoopCases.
Context {RT : Runtime}.

#[local] Arguments split_max : simpl never.
#[local] Arguments strip : simpl never.
#[local] Arguments startswith : simpl never.
#[local] Arguments str_eqb : simpl never.
#[local] Arguments Nat.ltb : simpl never.
#[local] Arguments get_formula : simpl never.
#[local] Arguments query_pdf : simpl never.
#[local] Arguments list_files : simpl never.
#[local] Arguments print_files : simpl never.

Lemma no_effects_after_input typed st : no_effects st (after_input typed st).
Proof. unfold no_effects. cbn. auto 6. Qed.

(** An iteration either has no effect beyond the log and the console
    (and then raises at most an interrupt), or it is a [pdf] line handed
    to [query_pdf], or it is an [ask] line handed to [get_formula]. *)
Lemma loop_body_cases e typed st :
  (exists r st',
     loop_body e typed st = (r, st') /\ no_effects st st'
     /\ match r with
        | Ret _ => True
        | Raised ex => isinstance_Exception ex = false
        end)
  \/ (exists filename question,
        startswith (str_lower (strip typed)) (py "ask ") = false
        /\ loop_body e typed st
           = match query_pdf e filename question (after_input typed st) with
             | (Ret answer, st1) => (Ret true, add_output (Print answer) st1)
             | (Raised ex, st1) => (Raised ex, st1)
             end)
  \/ (strip typed <> []
      /\ startswith (str_lower (strip typed)) (py "ask ") = true
      /\ loop_body e typed st
         = match get_formula e (drop 4 (strip typed)) (after_input typed st)
           with
           | (Ret answer, st1) => (Ret true, add_output (Print answer) st1)
           | (Raised ex, st1) => (Raised ex, st1)
           end).
Proof.
  unfold loop_body, after_input. unfold_monad. cbn.
  destruct (bool_decide (strip typed = [])) eqn:Hblank; cbn.
  { left. do 2 eexists. split; [reflexivity |].
    split; [unfold no_effects; cbn; auto 6 | exact I]. }
  apply bool_decide_eq_false in Hblank.
  destruct (str_eqb _ (py "exit") || str_eqb _ (py "quit")); cbn.
  { left. do 2 eexists. split; [reflexivity |].
    split; [unfold no_effects; cbn; auto 6 | exact I]. }
  destruct (str_eqb _ (py "help")); cbn.
  { left. do 2 eexists. split; [reflexivity |].
    split; [unfold no_effects; cbn; auto 6 | exact I]. }
  destruct (str_eqb _ (py "list")); cbn.
  { left.
    match goal with
    | |- context [list_files e ?s] =>
        pose proof (list_files_frame e s) as Hframe;
        pose proof (list_files_no_ordinary_exception e s) as Hexn;
        destruct (list_files e s) as [[files | ex] st1]
    end; cbn in *.
    - match goal with
      | |- context [print_files files ?s] =>
          destruct (print_files_output files s)
            as (st2 & -> & _ & Heff & _)
      end.
      do 2 eexists. split; [reflexivity |]. split; [| exact I].
      eapply no_effects_trans; [| exact Heff].
      unfold no_effects. cbn. exact Hframe.
    - do 2 eexists. split; [reflexivity |]. split; [| exact Hexn].
      unfold no_effects. exact Hframe. }
  destruct (startswith _ (py "pdf ")) eqn:Hpdf; cbn.
  { destruct (length _ <? 3)%nat; cbn.
    - left. do 2 eexists. split; [reflexivity |].
      split; [unfold no_effects; cbn; auto 6 | exact I].
    - right. left. do 2 eexists. split; [| reflexivity].
      destruct (proj1 (startswith_spec _ _) Hpdf) as [r ->].
      reflexivity. }
  destruct (startswith _ (py "ask ")) eqn:Hask; cbn.
  - right. right. split; [exact Hblank |]. split; reflexivity.
  - left. do 2 eexists. split; [reflexivity |].
    split; [unfold no_effects; cbn; auto 6 | exact I].
Qed.

(** [get_formula] raises only what the model raises on a miss. *)
Lemma get_formula_raises_only_model_failure e query st ex :
  fst (get_formula e query st) = Raised ex ->
  formulas_db st !! str_lower query = None
  /\ generate e (formula_prompt query) = Raised ex.
Proof.
  destruct (formulas_db st !! str_lower query) as [v|] eqn:Hq.
  - rewrite (get_formula_hit _ _ _ _ Hq). discriminate.
  - rewrite (get_formula_miss _ _ _ Hq). cbn.
    destruct (generate e (formula_prompt query)) as [response | ex'].
    + discriminate.
    + cbn. intros [= ->]. auto.
Qed.

(** [get_formula] calls the model at most once. *)
Lemma get_formula_at_most_one_call e query st :
  model_calls (snd (get_formula e query st)) = model_calls st
  \/ exists prompt,
       model_calls (snd (get_formula e query st)) = model_calls st ++ [prompt].
Proof.
  destruct (formulas_db st !! str_lower query) as [v|] eqn:Hq.
  - rewrite (get_formula_hit _ _ _ _ Hq). cbn. auto.
  - rewrite (get_formula_miss _ _ _ Hq). cbn. right.
    destruct (generate e _) as [response | ex]; cbn; [| eauto].
    destruct (write_result e); cbn; eauto.
Qed.

(** X12: an ordinary exception leaves [get_formula] only when the
    model raises it on a query whose key is not in the store.  The model
    was then called once, with the prompt for the query as typed, and
    the store is as it was, in memory and on disk: nothing is stored and
    nothing is written.  A hit raises nothing, and a save that fails is
    not raised. *)
Theorem X12_get_formula_fails_only_with_the_model e query st ex st' :
  get_formula e query st = (Raised ex, st') ->
  isinstance_Exception ex = true ->
  formulas_db st !! str_lower query = None
  /\ generate e (formula_prompt query) = Raised ex
  /\ model_calls st' = model_calls st ++ [formula_prompt query]
  /\ formulas_db st' = formulas_db st
  /\ store_file st' = store_file st
  /\ file_writes st' = file_writes st.
Proof.
  intros Hrun _.
  destruct (get_formula_raises_only_model_failure e query st ex)
    as [Hmiss Hgen]; [rewrite Hrun; reflexivity |].
  rewrite (get_formula_miss _ _ _ Hmiss) in Hrun. cbn in Hrun.
  rewrite Hgen in Hrun. injection Hrun as <-. cbn. auto 7.
Qed.

(** X13: an iteration of the loop calls the model at most once. *)
Theorem X13_at_most_one_model_call_per_line e typed st :
  model_calls (snd (loop_body e typed st)) = model_calls st
  \/ exists prompt,
       model_calls (snd (loop_body e typed st)) = model_calls st ++ [prompt].
Proof.
  destruct (loop_body_cases e typed st)
    as [(r & st' & Hbody & Heff & _)
       | [(filename & question & _ & Hbody) | (_ & _ & Hbody)]];
    rewrite Hbody.
  - left. cbn. apply Heff.
  - pose proof (query_pdf_at_most_one_call e filename question
                  (after_input typed st)) as Hcalls.
    destruct (query_pdf e filename question (after_input typed st))
      as [[answer | ex'] st1]; cbn in *; exact Hcalls.
  - pose proof (get_formula_at_most_one_call e (drop 4 (strip typed))
                  (after_input typed st)) as Hcalls.
    destruct (get_formula e (drop 4 (strip typed)) (after_input typed st))
      as [[answer | ex'] st1]; cbn in *; exact Hcalls.
Qed.

(** X14: only an [ask] line can change the formula store: after any
    other line the in-memory store and the file are what they were and
    nothing was written. *)
Theorem X14_only_ask_lines_touch_the_store e typed st :
  startswith (str_lower (strip typed)) (py "ask ") = false ->
  formulas_db (snd (loop_body e typed st)) = formulas_db st
  /\ store_file (snd (loop_body e typed st)) = store_file st
  /\ file_writes (snd (loop_body e typed st)) = file_writes st.
Proof.
  intros Hask.
  destruct (loop_body_cases e typed st)
    as [(r & st' & Hbody & Heff & _)
       | [(filename & question & _ & Hbody) | (_ & Hask' & _)]];
    [| | congruence]; rewrite Hbody.
  - cbn. unfold no_effects in Heff. tauto.
  - pose proof (query_pdf_frame e filename question (after_input typed st))
      as Hframe.
    destruct (query_pdf e filename question (after_input typed st))
      as [[answer | ex'] st1]; cbn in *; exact Hframe.
Qed.

End LoopCases.

Lemma X12_get_formula_fails_only_with_the_model_witness :
  formulas_db (boot empty_store) !! ascii_lower (py "Ohm's Law") = None
  /\ generate (with_failing_model demo_env) (formula_prompt (py "Ohm's Law"))
     = Raised model_failure
  /\ model_calls
       (snd (get_formula (RT := ascii_runtime) (with_failing_model demo_env)
               (py "Ohm's Law") (boot empty_store)))
     = [formula_prompt (py "Ohm's Law")]
  /\ formulas_db
       (snd (get_formula (RT := ascii_runtime) (with_failing_model demo_env)
               (py "Ohm's Law") (boot empty_store)))
     = ∅
  /\ store_file
       (snd (get_formula (RT := ascii_runtime) (with_failing_model demo_env)
               (py "Ohm's Law") (boot empty_store)))
     = empty_store
  /\ file_writes
       (snd (get_formula (RT := ascii_runtime) (with_failing_model demo_env)
               (py "Ohm's Law") (boot empty_store)))
     = [].
Proof.
  refine (X12_get_formula_fails_only_with_the_model (RT := ascii_runtime)
            (with_failing_model demo_env) (py "Ohm's Law")
            (boot empty_store) model_failure
            (snd (get_formula (RT := ascii_runtime)
                    (with_failing_model demo_env) (py "Ohm's Law")
                    (boot empty_store)))
            _ eq_refl).
  vm_compute. reflexivity.
Defined.

Lemma X14_only_ask_lines_touch_the_store_witness :
  formulas_db
    (snd (loop_body (RT := ascii_runtime) demo_env
            (py "pdf notes.pdf What is Ohm's law?") (boot empty_store)))
  = ∅
  /\ store_file
       (snd (loop_body (RT := ascii_runtime) demo_env
               (py "pdf notes.pdf What is Ohm's law?") (boot empty_store)))
     = empty_store
  /\ file_writes
       (snd (loop_body (RT := ascii_runtime) demo_env
               (py "pdf notes.pdf What is Ohm's law?") (boot empty_store)))
     = [].
Proof.
  refine (X14_only_ask_lines_touch_the_store (RT := ascii_runtime) demo_env
            (py "pdf notes.pdf What is Ohm's law?") (boot empty_store) _).
  vm_compute. reflexivity.
Defined.

(* ================================================================== *)
(** * Lines without a command, and leaving the loop *)
(* ================================================================== *)

Section LoopEdges.
Context {RT : Runtime}.

#[local] Arguments split_max : simpl never.
#[local] Arguments strip : simpl never.
#[local] Arguments startswith : simpl never.
#[local] Arguments str_eqb : simpl never.

(** X15: [exit] and [quit], in whatever case [str.lower] maps to them,
    end the loop: the process exits with status 0, the lines that follow
    are not processed, and nothing happens but the prompt and two log
    records. *)
Theorem X15_exit_and_quit_end_the_process e typed rest st :
  strip typed <> [] ->
  str_lower (strip typed) = py "exit" \/ str_lower (strip typed) = py "quit" ->
  exists st',
    command_loop ((e, typed) :: rest) st = (Ret LoopLeft, st')
    /\ process_of (command_loop ((e, typed) :: rest) st) = Exited 0 st'
    /\ stdout st' = stdout st ++ [input_prompt]
    /\ no_effects st st'.
Proof.
  intros Hline Hword. cbn [command_loop]. unfold loop_body. unfold_monad.
  cbn. rewrite bool_decide_false by exact Hline. cbn.
  assert (str_eqb (str_lower (strip typed)) (py "exit")
          || str_eqb (str_lower (strip typed)) (py "quit") = true) as ->.
  { destruct Hword as [-> | ->]; reflexivity. }
  cbn. eexists. split; [reflexivity |]. split; [reflexivity |].
  split; [reflexivity |]. unfold no_effects. cbn. auto 6.
Qed.

(** X16: a line made of whitespace only, the empty line included, is
    answered by the request to enter a command; it is not logged, has no
    other effect, and the loop goes on. *)
Theorem X16_blank_line_asks_for_a_command e typed st :
  forallb isspace typed = true ->
  loop_body e typed st
  = (Ret true, add_output enter_command (add_output input_prompt st)).
Proof.
  intros Hblank. unfold loop_body. unfold_monad. cbn.
  rewrite (strip_of_whitespace _ Hblank). reflexivity.
Qed.

End LoopEdges.

Lemma X15_exit_and_quit_end_the_process_witness :
  exists st',
    command_loop (RT := ascii_runtime)
      ((demo_env, py " Quit ") :: [(demo_env, py "ask ohm's law")])
      (boot empty_store)
    = (Ret LoopLeft, st')
    /\ process_of
         (command_loop (RT := ascii_runtime)
            ((demo_env, py " Quit ") :: [(demo_env, py "ask ohm's law")])
            (boot empty_store))
       = Exited 0 st'
    /\ stdout st' = [input_prompt]
    /\ no_effects (boot empty_store) st'.
Proof.
  refine (X15_exit_and_quit_end_the_process (RT := ascii_runtime) demo_env
            (py " Quit ") [(demo_env, py "ask ohm's law")] (boot empty_store)
            _ _).
  - vm_compute. discriminate.
  - right. vm_compute. reflexivity.
Defined.

Lemma X16_blank_line_asks_for_a_command_witness :
  loop_body (RT := ascii_runtime) demo_env (py "   " ++ [0x3000])
    (boot empty_store)
  = (Ret true,
     add_output enter_command (add_output input_prompt (boot empty_store))).
Proof.
  refine (X16_blank_line_asks_for_a_command (RT := ascii_runtime) demo_env
            (py "   " ++ [0x3000]) (boot empty_store) _).
  vm_compute. reflexivity.
Defined.

(* ================================================================== *)
(** * Memory and disk across the run *)
(* ================================================================== *)

Lemma in_sync_frame st st' :
  formulas_db st' = formulas_db st ->
  store_file st' = store_file st ->
  in_sync st -> in_sync st'.
Proof.
  unfold in_sync. intros -> ->. auto.
Qed.

Section RunInvariants.
Context {RT : Runtime}.

(** With a write that succeeds, [get_formula] keeps memory and disk in
    agreement. *)
Lemma get_formula_in_sync e query st :
  write_result e = WriteOk ->
  in_sync st -> in_sync (snd (get_formula e query st)).
Proof.
  intros Hw Hsync.
  destruct (formulas_db st !! str_lower query) as [v|] eqn:Hq.
  - rewrite (get_formula_hit _ _ _ _ Hq). cbn.
    eapply in_sync_frame; [| | exact Hsync]; reflexivity.
  - rewrite (get_formula_miss _ _ _ Hq). cbn.
    destruct (generate e _) as [response | ex]; cbn.
    + rewrite Hw. unfold in_sync. cbn. eexists. split; [reflexivity |].
      rewrite lookup_insert_eq. reflexivity.
    + eapply in_sync_frame; [| | exact Hsync]; reflexivity.
Qed.

(** X17: as long as no write fails, memory and disk agree whenever
    [main] is waiting for a line or has left the loop: the document on
    disk is an object whose "formulas" field is the in-memory store. *)
Theorem X17_memory_and_disk_agree_while_writes_succeed
    model_load e0 inputs disk status st :
  main model_load e0 inputs (boot disk) = (Ret status, st) ->
  Forall (fun line => write_result (fst line) = WriteOk) inputs ->
  in_sync st.
Proof.
  intros Hrun Hwrites. unfold main, StudyBot_init in Hrun.
  unfold bind at 1 2 3 in Hrun. unfold try_except, assign_formulas_db in Hrun.
  destruct model_load as [[] | ex]; cbn in Hrun.
  - destruct (init_formulas_db e0 _) as [[[] | ex] st1] eqn:Hinit;
      [| discriminate].
    apply init_formulas_db_in_sync in Hinit.
    unfold print, emit in Hrun. cbn in Hrun.
    match type of Hrun with
    | command_loop inputs ?s0 = _ =>
    pose proof (command_loop_related
                  (fun a b => in_sync a -> in_sync b)
                  (fun e => write_result e = WriteOk)
                  (fun _ H => H)
                  (fun _ _ _ H12 H23 H => H23 (H12 H))
                  (fun r s => in_sync_frame s (add_log r s) eq_refl eq_refl)
                  (fun o s => in_sync_frame s (add_output o s) eq_refl eq_refl)
                  (fun e q s Hw => get_formula_in_sync e q s Hw)
                  (fun e f q s _ =>
                     in_sync_frame s _
                       (proj1 (query_pdf_frame e f q s))
                       (proj1 (proj2 (query_pdf_frame e f q s))))
                  (fun e s _ =>
                     in_sync_frame s _
                       (proj1 (list_files_frame e s))
                       (proj1 (proj2 (list_files_frame e s))))
                  inputs s0 Hwrites) as Hloop
    end.
    rewrite Hrun in Hloop. cbn in Hloop. apply Hloop.
    eapply in_sync_frame; [| | exact Hinit]; reflexivity.
  - destruct (isinstance_Exception ex); discriminate.
Qed.

(** X18: whatever operations follow, an entry of the in-memory store
    that was not there before is a text (never another kind of value)
    stored under the lower-case form of some query. *)
Theorem X18_added_entries_are_texts_under_lowercase_keys st st' key v :
  later st st' ->
  formulas_db st' !! key = Some v ->
  formulas_db st !! key = Some v
  \/ exists query response, key = str_lower query /\ v = JStr response.
Proof.
  pose (R := fun a b : state =>
               forall key v, formulas_db b !! key = Some v ->
                 formulas_db a !! key = Some v
                 \/ exists query response,
                      key = str_lower query /\ v = JStr response).
  assert (forall a, R a a) as R_refl by (intros a k w; auto).
  assert (forall a b c, R a b -> R b c -> R a c) as R_trans.
  { intros a b c Hab Hbc k w Hc.
    destruct (Hbc k w Hc) as [Hb | Hnew]; auto. }
  assert (forall e q s, R s (snd (get_formula e q s))) as R_formula.
  { intros e q s k w. apply get_formula_adds_lowercase_strings. }
  assert (forall e f q s, R s (snd (query_pdf e f q s))) as R_pdf.
  { intros e f q s k w. rewrite (proj1 (query_pdf_frame e f q s)). auto. }
  assert (forall e s, R s (snd (list_files e s))) as R_list.
  { intros e s k w. rewrite (proj1 (list_files_frame e s)). auto. }
  assert (forall a b, step a b -> R a b) as R_step.
  { intros a b Hstep.
    destruct Hstep as [e query r a b Hrun | e filename question r a b Hrun
                      | e r a b Hrun | e typed r a b Hrun].
    - replace b with (snd (get_formula e query a))
        by (rewrite Hrun; reflexivity).
      apply R_formula.
    - replace b with (snd (query_pdf e filename question a))
        by (rewrite Hrun; reflexivity).
      apply R_pdf.
    - replace b with (snd (list_files e a)) by (rewrite Hrun; reflexivity).
      apply R_list.
    - replace b with (snd (loop_body e typed a))
        by (rewrite Hrun; reflexivity).
      apply (loop_body_related R (fun _ => True));
        solve [auto | intros ? s k w Hk; left; exact Hk]. }
  intros Hlater. revert key v. change (R st st').
  induction Hlater as [a | a b c Hstep _ IH]; [apply R_refl |].
  eapply R_trans; [apply R_step, Hstep | exact IH].
Qed.

End RunInvariants.

Lemma X17_memory_and_disk_agree_while_writes_succeed_witness :
  in_sync
    (snd (main (RT := ascii_runtime) (Ret tt) demo_env
            [(demo_env, py "ask resistance formula"); (demo_env, py "list")]
            (boot not_a_map_store))).
Proof.
  refine (X17_memory_and_disk_agree_while_writes_succeed
            (RT := ascii_runtime) (Ret tt) demo_env
            [(demo_env, py "ask resistance formula"); (demo_env, py "list")]
            not_a_map_store AwaitingInput _ _ _).
  - vm_compute. reflexivity.
  - repeat constructor.
Defined.

Lemma X18_added_entries_are_texts_under_lowercase_keys_witness :
  formulas_db (boot empty_store) !! py "resistance formula"
  = Some (JStr (py "R = V/I"))
  \/ exists query response,
       py "resistance formula" = ascii_lower query
       /\ JStr (py "R = V/I") = JStr response.
Proof.
  refine (X18_added_entries_are_texts_under_lowercase_keys
            (RT := ascii_runtime) (boot empty_store)
            (snd (get_formula (RT := ascii_runtime) demo_env
                    (py "Resistance Formula") (boot empty_store)))
            (py "resistance formula") (JStr (py "R = V/I")) _ _).
  - eapply rtc_l; [| apply rtc_refl].
    eapply (step_get_formula (RT := ascii_runtime) demo_env
              (py "Resistance Formula")).
    apply surjective_pairing.
  - vm_compute. reflexivity.
Defined.
